(** * jupyterhub-scripts: the image scaler and the image mover

    A shallow embedding of [images/scaler/src/main.py] and
    [images/mover/src/main.py], and the properties of their retry wrapper,
    discovery filter, batch scheduler, transform staging and tag-driven
    relocation.

    Python strings are modelled as [string], Python lists as [list], integers
    as [Z].  The remote store, the image library, the clock and the random
    generator are external: every interaction with them takes its answer from
    an [environment] indexed by the number of interactions made so far, so a
    statement quantified over the environment covers every behaviour of the
    outside world along one execution.  [print] calls only write to standard
    output and are left out, except the one discovery uses to report an entry
    it could not process. *)

From Stdlib Require Import String Ascii List ZArith Bool Arith Lia.
From Stdlib Require Import DecimalString.
Import ListNotations.
Open Scope string_scope.
Open Scope list_scope.

Set Implicit Arguments.
Set Warnings "-register-all".

(** String concatenation, as [+] and f-strings build paths. *)
Infix "+++" := String.append (right associativity, at level 60).

(** ** The Python string operations the scripts use *)

Module Py.

(** [s.split(sep)] for a one-character separator: the pieces between the
    occurrences of [sep], in order; never an empty list. *)
Fixpoint split (sep : ascii) (s : string) : list string :=
  match s with
  | EmptyString => [EmptyString]
  | String c s' =>
      if Ascii.eqb c sep then EmptyString :: split sep s'
      else match split sep s' with
           | [] => [String c EmptyString]
           | piece :: pieces => String c piece :: pieces
           end
  end.

(** [l[-1]] on the list [split] returns (which has a last element, see
    [split_not_nil]). *)
Definition last_piece (l : list string) : string := last l EmptyString.

(** [path.split("/")[-1]] *)
Definition basename (path : string) : string := last_piece (split "/" path).

(** [s.startswith(p)] *)
Definition startswith (s p : string) : bool := String.prefix p s.

(** [any(filename.startswith(prefix) for prefix in prefixes)] *)
Definition any_startswith (filename : string) (prefixes : list string) : bool :=
  existsb (startswith filename) prefixes.

(** The scan of [s.replace(old, new)] for a non-empty [old]: left to right,
    every non-overlapping occurrence of [old] is replaced.  [skip] counts the
    characters of the occurrence being replaced that are still to be passed
    over. *)
Fixpoint replace_scan (old new : string) (skip : nat) (s : string) : string :=
  match s with
  | EmptyString => EmptyString
  | String c s' =>
      match skip with
      | S k => replace_scan old new k s'
      | O =>
          if String.prefix old s
          then new +++ replace_scan old new (String.length old - 1) s'
          else String c (replace_scan old new 0 s')
      end
  end.

(** [s.replace("", new)] puts [new] before every character and at the end. *)
Fixpoint replace_empty (new s : string) : string :=
  match s with
  | EmptyString => new
  | String c s' => new +++ String c (replace_empty new s')
  end.

(** [s.replace(old, new)] *)
Definition replace (s old new : string) : string :=
  match old with
  | EmptyString => replace_empty new s
  | String _ _ => replace_scan old new 0 s
  end.

(** [os.path.join(a, b)] on POSIX paths. *)
Definition endswith_slash (s : string) : bool :=
  match s with
  | EmptyString => false
  | _ => String.eqb (last_piece (split "/" s)) EmptyString
  end.

Definition os_path_join (a b : string) : string :=
  if startswith b "/" then b
  else if (String.eqb a EmptyString || endswith_slash a)%bool then a +++ b
  else a +++ "/" +++ b.

(** [str(n)] for a non-negative integer. *)
Definition str_of_nat (n : nat) : string := NilEmpty.string_of_uint (Nat.to_uint n).

(** [c in s] for a character. *)
Fixpoint has_char (c : ascii) (s : string) : bool :=
  match s with
  | EmptyString => false
  | String d s' => (Ascii.eqb d c || has_char c s')%bool
  end.

(** [old in s]: [old] occurs somewhere in [s]. *)
Fixpoint occurs (old s : string) : bool :=
  match s with
  | EmptyString => String.prefix old EmptyString
  | String _ s' => (String.prefix old s || occurs old s')%bool
  end.

End Py.

(** ** Exceptions, outcomes and the effect monad *)

(** The exception classes the scripts name or can meet.  [NoConnection] and
    [ConnectionException] are the two classes of the WebDAV client that the
    retry wrapper intercepts. *)
Inductive exn : Type :=
| NoConnection
| ConnectionException
| KeyError
| TypeError
| AttributeError
| IndexError
| ValueError
| FileNotFoundError
| OtherException (cls : string).

(** What a call into an external library does: it returns or it raises. *)
Inductive outcome (A : Type) : Type :=
| Returns (a : A)
| Raises (e : exn).
Arguments Raises {A} e.

(** How a computation of the script ends.  [Diverge] stands for a loop that
    is still running when the fuel is spent. *)
Inductive result (A : Type) : Type :=
| Ret (a : A)
| Raise (e : exn)
| Diverge.
Arguments Raise {A} e.
Arguments Diverge {A}.

Module Eff.
Section Monad.
Variables St Ev : Type.

(** One execution: how it ended, the state it left and the events it
    emitted, oldest first. *)
Record run (A : Type) : Type :=
  mkRun { res : result A; final : St; events : list Ev }.

Definition M (A : Type) : Type := St -> run A.

Definition ret {A} (a : A) : M A := fun s => mkRun (Ret a) s [].

Definition raise {A} (e : exn) : M A := fun s => mkRun (Raise e) s [].

Definition emit (ev : Ev) : M unit := fun s => mkRun (Ret tt) s [ev].

Definition bind {A B} (m : M A) (k : A -> M B) : M B := fun s =>
  match m s with
  | mkRun (Ret a) s1 evs =>
      match k a s1 with
      | mkRun r s2 evs' => mkRun r s2 (evs ++ evs')
      end
  | mkRun (Raise e) s1 evs => mkRun (Raise e) s1 evs
  | mkRun Diverge s1 evs => mkRun Diverge s1 evs
  end.
End Monad.
End Eff.

Arguments Eff.mkRun {St Ev A} _ _ _.
Arguments Eff.res {St Ev A} _.
Arguments Eff.final {St Ev A} _.
Arguments Eff.events {St Ev A} _.
Arguments Eff.ret {St Ev A} _ _.
Arguments Eff.raise {St Ev A} _ _.
Arguments Eff.emit {St Ev} _ _.
Arguments Eff.bind {St Ev A B} _ _ _.

Declare Scope eff_scope.
Delimit Scope eff_scope with eff.
Notation "x <- m ;; k" := (Eff.bind m (fun x => k))
  (at level 61, m at next level, right associativity) : eff_scope.
Notation "m ;;; k" := (Eff.bind m (fun _ => k))
  (at level 61, right associativity) : eff_scope.

(** ** Python values of a directory listing *)

(** The WebDAV client parses a listing into a list of dictionaries; a
    listing entry is modelled as an arbitrary value so that entries of the
    wrong shape can be expressed. *)
Inductive pyvalue : Type :=
| PyNone
| PyBool (b : bool)
| PyInt (z : Z)
| PyStr (s : string)
| PyList (items : list pyvalue)
| PyDict (fields : list (string * pyvalue)).

Module PyVal.

(** Truth value of an object, as [not x] tests it. *)
Definition truthy (v : pyvalue) : bool :=
  match v with
  | PyNone => false
  | PyBool b => b
  | PyInt z => negb (Z.eqb z 0)
  | PyStr s => negb (String.eqb s EmptyString)
  | PyList items => match items with [] => false | _ => true end
  | PyDict fields => match fields with [] => false | _ => true end
  end.

Fixpoint lookup (key : string) (fields : list (string * pyvalue)) : option pyvalue :=
  match fields with
  | [] => None
  | (k, v) :: rest => if String.eqb k key then Some v else lookup key rest
  end.

(** [v[key]] for a string key: a dictionary is looked up ([KeyError] when the
    key is absent); strings and lists take integer indices only and the other
    values are not subscriptable ([TypeError]). *)
Definition subscript (v : pyvalue) (key : string) : outcome pyvalue :=
  match v with
  | PyDict fields =>
      match lookup key fields with
      | Some x => Returns x
      | None => Raises KeyError
      end
  | _ => Raises TypeError
  end.

(** [v.split("/")]: only strings have the method ([AttributeError]
    otherwise). *)
Definition split_slash (v : pyvalue) : outcome (list string) :=
  match v with
  | PyStr s => Returns (Py.split "/" s)
  | _ => Raises AttributeError
  end.

End PyVal.

(** ** The image scaler, [images/scaler/src/main.py] *)

Module Scaler.

(** The constants the script reads from the secret store, and the working
    directory of the process. *)
Record config : Type := mkConfig {
  RAW_NAMES_PREFIXES : list string;
  RAW_REMOTE_DIR : string;
  UNSORTED_REMOTE_DIR : string;
  getcwd : string
}.

Definition THREADS_LIMIT : nat := 10.

(** The outside world.  The first argument of every field is the number of
    interactions made before this one. *)
Record environment : Type := mkEnv {
  (* webdav_client.list(raw, get_info=True) *)
  webdav_list : nat -> string -> outcome (list pyvalue);
  (* webdav_client.download_sync(remote_path, local_path) *)
  download_sync : nat -> string -> string -> outcome unit;
  (* webdav_client.upload_sync(remote_path, local_path) *)
  upload_sync : nat -> string -> string -> outcome unit;
  (* webdav_client.clean(remote_path) *)
  clean : nat -> string -> outcome unit;
  (* cv2.imread(path): None, or an image of some height and width *)
  imread : nat -> string -> outcome (option (Z * Z));
  (* cv2.resize(image, (new_width, new_height), interpolation) *)
  resize : nat -> Z * Z -> Z * Z -> outcome unit;
  (* cv2.imwrite(path, image): True when the file was written *)
  imwrite : nat -> string -> Z * Z -> outcome bool;
  (* datetime.now().strftime("%Y%m%d%H%M%S") *)
  now_strftime : nat -> string;
  (* randint(lo, hi) *)
  randint : nat -> nat -> nat -> nat
}.

(** The local file system as the set of paths that exist, and the number of
    interactions with the outside world so far. *)
Record state : Type := mkState {
  fs : list string;
  clock : nat
}.

Inductive remote_call : Type :=
| CallList (remote_path : string)
| CallDownload (remote_path local_path : string)
| CallUpload (remote_path local_path : string)
| CallClean (remote_path : string).

(** What an execution leaves behind: the calls of the remote store with the
    failure they ended in, if any; the back-off sleeps; the listing entries
    discovery reported instead of processing. *)
Inductive event : Type :=
| Remote (c : remote_call) (failure : option exn)
| Sleep (seconds : Z)
| EntryError (e : exn) (raw : pyvalue).

Definition M : Type -> Type := Eff.M state event.

Local Open Scope eff_scope.

Definition tick (s : state) : state := mkState (fs s) (S (clock s)).

(** One call of the remote store: the environment answers, the call is
    recorded. *)
Definition remote {A} (c : remote_call) (answer : nat -> outcome A) : M A :=
  fun s =>
    match answer (clock s) with
    | Returns a => Eff.mkRun (Ret a) (tick s) [Remote c None]
    | Raises e => Eff.mkRun (Raise e) (tick s) [Remote c (Some e)]
    end.

(** One call of the image library or of the clock: answered, not recorded. *)
Definition external {A} (answer : nat -> outcome A) : M A :=
  fun s =>
    match answer (clock s) with
    | Returns a => Eff.mkRun (Ret a) (tick s) []
    | Raises e => Eff.mkRun (Raise e) (tick s) []
    end.

(** [time.sleep(seconds)] *)
Definition time_sleep (seconds : Z) : M unit := Eff.emit (Sleep seconds).

Definition file_in (path : string) (files : list string) : bool :=
  existsb (String.eqb path) files.

(** [os.path.exists(path)] *)
Definition os_path_exists (path : string) : M bool :=
  fun s => Eff.mkRun (Ret (file_in path (fs s))) s [].

(** [os.remove(path)] *)
Definition os_remove (path : string) : M unit :=
  fun s =>
    if file_in path (fs s)
    then Eff.mkRun (Ret tt)
           (mkState (filter (fun p => negb (String.eqb path p)) (fs s)) (clock s)) []
    else Eff.mkRun (Raise FileNotFoundError) s [].

(** A library call that leaves a file at [path] when it succeeds. *)
Definition create_file (path : string) : M unit :=
  fun s => Eff.mkRun (Ret tt) (mkState (path :: fs s) (clock s)) [].

(** [except (webdav3.exceptions.NoConnection,
            webdav3.exceptions.ConnectionException)] *)
Definition is_connection_error (e : exn) : bool :=
  match e with
  | NoConnection | ConnectionException => true
  | _ => false
  end.

(** The decorator.  [while True] runs until [method] returns or raises
    something else than a connection error; [fuel] bounds the number of
    attempts the model follows. *)
Fixpoint webdav_exception_handler {A B} (fuel : nat) (method : A -> M B) (args : A)
  : M B :=
  fun s =>
    match fuel with
    | O => Eff.mkRun Diverge s []
    | S fuel' =>
        let r := method args s in
        match Eff.res r with
        | Raise e =>
            if is_connection_error e
            then
              let r' := (time_sleep 180 ;;; webdav_exception_handler fuel' method args)
                          (Eff.final r) in
              Eff.mkRun (Eff.res r') (Eff.final r') (Eff.events r ++ Eff.events r')
            else r
        | _ => r
        end
    end.

Section WithConfiguration.
Variable cfg : config.
Variable env : environment.

Definition WORKDIR : string := getcwd cfg +++ "/tmp".
Definition OUTPUT_DIR : string := getcwd cfg +++ "/output".

(** The body of the [try] in [get_images_list]: [Returns (Some path)] when
    the entry is appended, [Returns None] when it is passed over, [Raises]
    when a step of the body raises. *)
Definition try_entry (file : pyvalue) : outcome (option string) :=
  match PyVal.subscript file "path" with
  | Raises e => Raises e
  | Returns path =>
      match PyVal.split_slash path, path with
      | Returns pieces, PyStr p =>
          let filename := Py.last_piece pieces in
          let name_condition := Py.any_startswith filename (RAW_NAMES_PREFIXES cfg) in
          if name_condition then
            match PyVal.subscript file "isdir" with
            | Raises e => Raises e
            | Returns isdir =>
                if negb (PyVal.truthy isdir) then Returns (Some p) else Returns None
            end
          else Returns None
      | Returns _, _ => Raises AttributeError (* not reached: only strings split *)
      | Raises e, _ => Raises e
      end
  end.

(** [except (KeyError, TypeError, AttributeError, IndexError, ValueError)] *)
Definition entry_handler_catches (e : exn) : bool :=
  match e with
  | KeyError | TypeError | AttributeError | IndexError | ValueError => true
  | _ => false
  end.

(** The [for file in all_files] loop. *)
Fixpoint scan_entries (all_files : list pyvalue) (files_for_processing : list string)
  : M (list string) :=
  match all_files with
  | [] => Eff.ret files_for_processing
  | file :: rest =>
      match try_entry file with
      | Returns (Some path) => scan_entries rest (files_for_processing ++ [path])
      | Returns None => scan_entries rest files_for_processing
      | Raises e =>
          if entry_handler_catches e
          then Eff.emit (EntryError e file) ;;; scan_entries rest files_for_processing
          else Eff.raise e
      end
  end.

Definition get_images_list_undecorated (raw : string) : M (list string) :=
  all_files <- remote (CallList raw) (fun t => webdav_list env t raw) ;;
  scan_entries all_files [].

Definition get_images_list (fuel : nat) (raw : string) : M (list string) :=
  webdav_exception_handler fuel get_images_list_undecorated raw.

Definition download_image_undecorated (args : string * string) : M unit :=
  let '(remote_file_path, directory) := args in
  let filename := Py.basename remote_file_path in
  let remote_file_path := RAW_REMOTE_DIR cfg +++ "/" +++ filename in
  let local_path := directory +++ "/" +++ filename in
  remote (CallDownload remote_file_path local_path)
         (fun t => download_sync env t remote_file_path local_path) ;;;
  create_file local_path.

Definition download_image (fuel : nat) (remote_file_path directory : string) : M unit :=
  webdav_exception_handler fuel download_image_undecorated (remote_file_path, directory).

Definition upload_image_undecorated (args : string * string) : M unit :=
  let '(local_file_path, remote_directory) := args in
  let filename := Py.basename local_file_path in
  let remote_file_path := remote_directory +++ "/" +++ filename in
  remote (CallUpload remote_file_path local_file_path)
         (fun t => upload_sync env t remote_file_path local_file_path) ;;;
  os_remove local_file_path.

Definition upload_image (fuel : nat) (local_file_path remote_directory : string) : M unit :=
  webdav_exception_handler fuel upload_image_undecorated (local_file_path, remote_directory).

Definition delete_source_image_undecorated (remote_file_name : string) : M unit :=
  remote (CallClean remote_file_name) (fun t => clean env t remote_file_name).

Definition delete_source_image (fuel : nat) (remote_file_name : string) : M unit :=
  webdav_exception_handler fuel delete_source_image_undecorated remote_file_name.

(** [f'jh_rescaler_{datetime.now().strftime(...)}_{randint(1, 1000)}.png'] *)
Definition new_name (stamp : string) (number : nat) : string :=
  "jh_rescaler_" +++ stamp +++ "_" +++ Py.str_of_nat number +++ ".png".

Definition increase_resolution (file_name : string) (scale_factor : Z) : M string :=
  stamp <- external (fun t => Returns (now_strftime env t)) ;;
  number <- external (fun t => Returns (randint env t 1 1000)) ;;
  let new_file_name := new_name stamp number in
  let input_file := Py.os_path_join WORKDIR file_name in
  let output_file := Py.os_path_join OUTPUT_DIR new_file_name in
  image <- external (fun t => imread env t input_file) ;;
  match image with
  | None => Eff.raise AttributeError
  | Some (height, width) =>
      let new_shape := ((height * scale_factor)%Z, (width * scale_factor)%Z) in
      external (fun t => resize env t (height, width) new_shape) ;;;
      written <- external (fun t => imwrite env t output_file new_shape) ;;
      (if written : bool then create_file output_file else Eff.ret tt) ;;;
      found <- os_path_exists output_file ;;
      (if found : bool then os_remove input_file else Eff.ret tt) ;;;
      Eff.ret new_file_name
  end.

Definition multi_threading_run (fuel : nat) (file : string) : M unit :=
  download_image fuel file WORKDIR ;;;
  processed_file <- increase_resolution (Py.basename file) 2 ;;
  upload_image fuel (OUTPUT_DIR +++ "/" +++ processed_file) (UNSORTED_REMOTE_DIR cfg) ;;;
  delete_source_image fuel (RAW_REMOTE_DIR cfg +++ "/" +++ Py.basename file).

End WithConfiguration.

(** *** The batch scheduler of [__main__] *)

(** A [threading.Thread(target=multi_threading_run, args=(item,))] object:
    its rank among the threads of the cycle and the item it works on. *)
Record thread : Type := mkThread { rank : nat; target_arg : string }.

(** What the main thread does to the worker threads. *)
Inductive sched_event : Type :=
| Start (t : thread)
| Join (t : thread).

(** The [for item in objects] loop followed by the final joins, as the
    sequence of [start()] and [join()] calls of the main thread. *)
Fixpoint schedule_from (objects : list string) (next : nat) (thread_poll : list thread)
  : list sched_event :=
  match objects with
  | [] => map Join thread_poll
  | item :: rest =>
      let scaler_thread := mkThread next item in
      if (THREADS_LIMIT <=? length thread_poll)%nat
      then map Join thread_poll
             ++ Start scaler_thread :: schedule_from rest (S next) [scaler_thread]
      else Start scaler_thread
             :: schedule_from rest (S next) (thread_poll ++ [scaler_thread])
  end.

(** One cycle of [while True] once discovery has answered. *)
Definition schedule (objects : list string) : list sched_event :=
  schedule_from objects 0 [].

Definition same_thread (a b : thread) : bool := Nat.eqb (rank a) (rank b).

(** The threads started and not yet joined after a sequence of calls: a
    thread runs at most from its [start()] to the return of its [join()]. *)
Definition sched_step (running : list thread) (ev : sched_event) : list thread :=
  match ev with
  | Start t => running ++ [t]
  | Join t => filter (fun u => negb (same_thread t u)) running
  end.

Definition in_flight (evs : list sched_event) : list thread :=
  fold_left sched_step evs [].

End Scaler.

(** ** The image mover, [images/mover/src/main.py] *)

Module Mover.

Record config : Type := mkConfig {
  IMAGES_ROOT_DIR : string;
  UNSORTED_REMOTE_DIR : string;
  PARENT_TAG_VALUE : string
}.

(** A file node of the Nextcloud client, with the attributes the script
    reads. *)
Record node : Type := mkNode {
  name : string;
  user_path : string;
  file_id : Z
}.

Record tag : Type := mkTag {
  tag_id : Z;
  display_name : string
}.

(** The Nextcloud client.  The first argument of every field is the number
    of calls made before this one. *)
Record environment : Type := mkEnv {
  (* nextcloud_client.files.listdir(path) *)
  listdir : nat -> string -> outcome (list node);
  (* nextcloud_client.files.get_tags(file_id=node) *)
  get_tags : nat -> node -> outcome (list tag);
  (* nextcloud_client.files.list_tags() *)
  list_tags : nat -> outcome (list tag);
  (* nextcloud_client.files.move(path_src=node, path_dest=target_path) *)
  move : nat -> node -> string -> outcome unit;
  (* nextcloud_client.files.unassign_tag(file_id=node, tag_id=tag_id) *)
  unassign_tag : nat -> node -> Z -> outcome unit
}.

(** The number of calls of the client so far. *)
Record state : Type := mkState { clock : nat }.

Inductive remote_call : Type :=
| CallListdir (path : string)
| CallListTags
| CallGetTags (n : node)
| CallMove (path_src : node) (path_dest : string)
| CallUnassignTag (n : node) (id : Z).

Inductive event : Type :=
| Remote (c : remote_call) (failure : option exn).

Definition M : Type -> Type := Eff.M state event.

Local Open Scope eff_scope.

Definition remote {A} (c : remote_call) (answer : nat -> outcome A) : M A :=
  fun s =>
    match answer (clock s) with
    | Returns a => Eff.mkRun (Ret a) (mkState (S (clock s))) [Remote c None]
    | Raises e => Eff.mkRun (Raise e) (mkState (S (clock s))) [Remote c (Some e)]
    end.

(** The calls that change the remote store; the others only read it. *)
Definition mutates (c : remote_call) : bool :=
  match c with
  | CallMove _ _ | CallUnassignTag _ _ => true
  | _ => false
  end.

Section WithConfiguration.
Variable cfg : config.
Variable env : environment.

Definition get_images_list : M (list node) :=
  remote (CallListdir (UNSORTED_REMOTE_DIR cfg))
         (fun t => listdir env t (UNSORTED_REMOTE_DIR cfg)).

Definition get_image_tags (file_id : node) : M (list tag) :=
  remote (CallGetTags file_id) (fun t => get_tags env t file_id).

Definition get_tags_list : M (list tag) :=
  remote CallListTags (fun t => list_tags env t).

(** The f-string of [move_image]:
    [IMAGES_ROOT_DIR/tag_name.replace(PARENT_TAG_VALUE + ':', '')/node.user_path.split('/')[-1]] *)
Definition target_path (n : node) (tag_name : string) : string :=
  IMAGES_ROOT_DIR cfg +++ "/"
    +++ Py.replace tag_name (PARENT_TAG_VALUE cfg +++ ":") ""
    +++ "/" +++ Py.basename (user_path n).

Definition move_image (n : node) (tags : list tag) : M unit :=
  match tags with
  | [] => Eff.raise IndexError
  | first :: _ =>
      let tag_id := tag_id first in
      let tag_name := display_name first in
      let target_path := target_path n tag_name in
      remote (CallMove n target_path) (fun t => move env t n target_path) ;;;
      remote (CallUnassignTag n tag_id) (fun t => unassign_tag env t n tag_id)
  end.

(** The body of [for node in nodes]. *)
Definition relocate (n : node) : M unit :=
  tags <- get_image_tags n ;;
  if (0 <? length tags)%nat then move_image n tags else Eff.ret tt.

Fixpoint for_each_node (nodes : list node) : M unit :=
  match nodes with
  | [] => Eff.ret tt
  | n :: rest => relocate n ;;; for_each_node rest
  end.

(** [__main__], up to [sys.exit(0)]. *)
Definition main : M unit :=
  nodes <- get_images_list ;;
  all_tags <- get_tags_list ;;
  for_each_node nodes.

End WithConfiguration.

End Mover.

(** ** Vocabulary of the statements and concrete scenarios *)

(** The destination as the documentation of [move_image] words it: the
    ['PARENT_TAG_VALUE:'] prefix of the tag name is removed, and nothing
    else.  Kept apart from [Mover.target_path], which is what the code
    computes, to compare the two. *)
Definition remove_prefix (s p : string) : string :=
  if String.prefix p s
  then String.substring (String.length p) (String.length s - String.length p) s
  else s.

Definition documented_target_path (cfg : Mover.config) (n : Mover.node) (tag_name : string)
  : string :=
  Mover.IMAGES_ROOT_DIR cfg +++ "/"
    +++ remove_prefix tag_name (Mover.PARENT_TAG_VALUE cfg +++ ":")
    +++ "/" +++ Py.basename (Mover.user_path n).

Definition mover_cfg : Mover.config := Mover.mkConfig "/Photos" "_unsorted" "ai".

Definition photo : Mover.node :=
  Mover.mkNode "jh_rescaler_20240101120000_7.png" "_unsorted/jh_rescaler_20240101120000_7.png" 42.

Definition thai_food : Mover.tag := Mover.mkTag 5 "ai:thai:food".


(** The events of [N] attempts of a wrapped call, each followed by its
    back-off sleep, the [i]-th attempt being made in state [ss i]. *)
Definition attempts_with_sleep {A B} (method : A -> Scaler.M B) (args : A)
           (ss : nat -> Scaler.state) (from N : nat) : list Scaler.event :=
  flat_map (fun i => Eff.events (method args (ss i)) ++ [Scaler.Sleep 180]) (seq from N).

(** A listing entry is well formed when it is a dictionary with a string
    under ['path'] and some value under ['isdir']. *)
Definition well_formed (file : pyvalue) : bool :=
  match file with
  | PyDict fields =>
      match PyVal.lookup "path" fields, PyVal.lookup "isdir" fields with
      | Some (PyStr _), Some _ => true
      | _, _ => false
      end
  | _ => false
  end.

Definition entry_path (file : pyvalue) : string :=
  match PyVal.subscript file "path" with
  | Returns (PyStr p) => p
  | _ => EmptyString
  end.

Definition entry_is_directory (file : pyvalue) : bool :=
  match PyVal.subscript file "isdir" with
  | Returns isdir => PyVal.truthy isdir
  | Raises _ => false
  end.

(** The prefix predicate on a well-formed entry: not a directory, and the
    base name starts with one of the configured prefixes. *)
Definition selected (cfg : Scaler.config) (file : pyvalue) : bool :=
  (Py.any_startswith (Py.basename (entry_path file)) (Scaler.RAW_NAMES_PREFIXES cfg)
   && negb (entry_is_directory file))%bool.

(** What discovery prints for one entry: a line with the exception and the
    raw entry when processing it raised, nothing otherwise. *)
Definition entry_report (cfg : Scaler.config) (file : pyvalue) : list Scaler.event :=
  match Scaler.try_entry cfg file with
  | Raises e => [Scaler.EntryError e file]
  | Returns _ => []
  end.

Definition scaler_cfg : Scaler.config :=
  Scaler.mkConfig ["raw"; "image"] "_raw" "_unsorted" "/home/jovyan".

(** A store that answers every call, except that the first [failures]
    downloads find no connection. *)
Definition flaky_env (failures : nat) : Scaler.environment :=
  Scaler.mkEnv
    (fun _ _ => Returns [])
    (fun t _ _ => if (t <? failures)%nat then Raises NoConnection else Returns tt)
    (fun _ _ _ => Returns tt)
    (fun _ _ => Returns tt)
    (fun _ _ => Returns (Some (480, 640)%Z))
    (fun _ _ _ => Returns tt)
    (fun _ _ _ => Returns true)
    (fun _ => "20240101120000")
    (fun _ _ _ => 7).

Definition raw_photo : string := "/remote.php/dav/files/jovyan/_raw/raw_photo1.jpg".

(** A store whose listing is [all_files] and that answers every other
    call. *)
Definition listing_env (all_files : list pyvalue) : Scaler.environment :=
  Scaler.mkEnv
    (fun _ _ => Returns all_files)
    (fun _ _ _ => Returns tt)
    (fun _ _ _ => Returns tt)
    (fun _ _ => Returns tt)
    (fun _ _ => Returns (Some (480, 640)%Z))
    (fun _ _ _ => Returns tt)
    (fun _ _ _ => Returns true)
    (fun _ => "20240101120000")
    (fun _ _ _ => 7).

Definition file_entry (path : string) (isdir : bool) : pyvalue :=
  PyDict [("path", PyStr path); ("isdir", PyBool isdir)].

Definition raw_listing : list pyvalue :=
  [ file_entry "/remote.php/dav/files/jovyan/_raw/" true;
    file_entry "/remote.php/dav/files/jovyan/_raw/raw_photo1.jpg" false;
    file_entry "/remote.php/dav/files/jovyan/_raw/notes.txt" false;
    file_entry "/remote.php/dav/files/jovyan/_raw/image_2.png" false;
    file_entry "/remote.php/dav/files/jovyan/_raw/raw_dir/" true ].

(** An entry without ['isdir'] whose name matches no prefix. *)
Definition notes_without_isdir : pyvalue :=
  PyDict [("path", PyStr "/remote.php/dav/files/jovyan/_raw/notes.txt")].

(** The paths of one task of the transform pipeline: where the raw item
    is fetched from and deleted, where it is staged, and where the transform
    started at interaction [t] writes its result. *)
Definition raw_source (cfg : Scaler.config) (file : string) : string :=
  Scaler.RAW_REMOTE_DIR cfg +++ "/" +++ Py.basename file.

Definition staged_input (cfg : Scaler.config) (file : string) : string :=
  Py.os_path_join (Scaler.WORKDIR cfg) (Py.basename file).

Definition generated_name (env : Scaler.environment) (t : nat) : string :=
  Scaler.new_name (Scaler.now_strftime env t) (Scaler.randint env (S t) 1 1000).

Definition transform_output (cfg : Scaler.config) (env : Scaler.environment) (t : nat)
  : string :=
  Py.os_path_join (Scaler.OUTPUT_DIR cfg) (generated_name env t).

(** The events each stage of a task can emit. *)
Definition download_or_sleep (cfg : Scaler.config) (file : string) (ev : Scaler.event) : Prop :=
  ev = Scaler.Sleep 180
  \/ exists failure,
       ev = Scaler.Remote
              (Scaler.CallDownload (raw_source cfg file)
                                   (Scaler.WORKDIR cfg +++ "/" +++ Py.basename file))
              failure.

Definition upload_or_sleep (ev : Scaler.event) : Prop :=
  ev = Scaler.Sleep 180
  \/ exists remote_path local_path failure,
       ev = Scaler.Remote (Scaler.CallUpload remote_path local_path) failure.

Definition clean_or_sleep (cfg : Scaler.config) (file : string) (ev : Scaler.event) : Prop :=
  ev = Scaler.Sleep 180
  \/ exists failure, ev = Scaler.Remote (Scaler.CallClean (raw_source cfg file)) failure.

(** A store that answers every call, with an image library that reads
    the image but writes nothing. *)
Definition no_output_env : Scaler.environment :=
  Scaler.mkEnv
    (fun _ _ => Returns [])
    (fun _ _ _ => Returns tt)
    (fun _ _ _ => Returns tt)
    (fun _ _ => Returns tt)
    (fun _ _ => Returns (Some (480, 640)%Z))
    (fun _ _ _ => Returns tt)
    (fun _ _ _ => Returns false)
    (fun _ => "20240101120000")
    (fun _ _ _ => 7).

Definition ai_cats : Mover.tag := Mover.mkTag 3 "ai:cats".

(** The connection error of the HTTP library under the Nextcloud client. *)
Definition connect_error : exn := OtherException "httpx.ConnectError".

(** A Nextcloud instance with one file in the unsorted directory, carrying
    [tags], and whose [move] answers [move_answer]. *)
Definition mover_env (tags : list Mover.tag) (move_answer : outcome unit)
  : Mover.environment :=
  Mover.mkEnv
    (fun _ _ => Returns [photo])
    (fun _ _ => Returns tags)
    (fun _ => Returns [ai_cats])
    (fun _ _ _ => move_answer)
    (fun _ _ _ => Returns tt).

(** The order the events of a run must show: a deletion of the raw item
    only after an upload that succeeded; a tag unassigned only right after the
    move of the same file succeeded. *)
Definition deleted_after_upload (evs : list Scaler.event) : Prop :=
  forall before p f after,
    evs = before ++ Scaler.Remote (Scaler.CallClean p) f :: after ->
    exists remote_path local_path,
      In (Scaler.Remote (Scaler.CallUpload remote_path local_path) None) before.

Definition unassigned_after_move (evs : list Mover.event) : Prop :=
  forall before n id f after,
    evs = before ++ Mover.Remote (Mover.CallUnassignTag n id) f :: after ->
    exists earlier dest,
      before = earlier ++ [Mover.Remote (Mover.CallMove n dest) None].

(** The threads a sequence of scheduler calls has started, in order. *)
Definition started (evs : list Scaler.sched_event) : list Scaler.thread :=
  flat_map (fun ev => match ev with Scaler.Start t => [t] | Scaler.Join _ => [] end) evs.

(** Eleven raw items: one more than a batch holds. *)
Definition eleven_objects : list string :=
  map (fun n => "_raw/raw_" +++ Py.str_of_nat n +++ ".jpg") (seq 0 11).

Definition nth_thread (n : nat) : Scaler.thread :=
  Scaler.mkThread n ("_raw/raw_" +++ Py.str_of_nat n +++ ".jpg").

(** The attempts of a wrapped call [c] that found no connection, each
    followed by its back-off sleep. *)
Definition retry_trace (c : Scaler.remote_call) (errors : list exn) : list Scaler.event :=
  flat_map (fun e => [Scaler.Remote c (Some e); Scaler.Sleep 180]) errors.

(** The files whose tags a run of the mover has asked for, in order. *)
Definition queried (evs : list Mover.event) : list Mover.node :=
  flat_map (fun ev => match ev with
                      | Mover.Remote (Mover.CallGetTags n) _ => [n]
                      | _ => []
                      end) evs.

(** The threads of a cycle: one per object, ranked from [next]. *)
Fixpoint threads_from (next : nat) (objects : list string) : list Scaler.thread :=
  match objects with
  | [] => []
  | object :: rest => Scaler.mkThread next object :: threads_from (S next) rest
  end.

(** A store that finds no connection for the first [failures] calls and
    then lists [all_files]. *)
Definition lost_listing_env (failures : nat) (all_files : list pyvalue) : Scaler.environment :=
  Scaler.mkEnv
    (fun t _ => if (t <? failures)%nat then Raises NoConnection else Returns all_files)
    (fun _ _ _ => Returns tt)
    (fun _ _ _ => Returns tt)
    (fun _ _ => Returns tt)
    (fun _ _ => Returns (Some (480, 640)%Z))
    (fun _ _ _ => Returns tt)
    (fun _ _ _ => Returns true)
    (fun _ => "20240101120000")
    (fun _ _ _ => 7).

Definition no_prefix_cfg : Scaler.config :=
  Scaler.mkConfig [] "_raw" "_unsorted" "/home/jovyan".

(** A Nextcloud instance that cannot list its tags. *)
Definition no_tag_list_env : Mover.environment :=
  Mover.mkEnv
    (fun _ _ => Returns [photo])
    (fun _ _ => Returns [ai_cats])
    (fun _ => Raises connect_error)
    (fun _ _ _ => Returns tt)
    (fun _ _ _ => Returns tt).

Definition cats : Mover.tag := Mover.mkTag 9 "cats".

Definition scaled_png : string := "/home/jovyan/output/jh_rescaler_20240101120000_7.png".

Definition staged_jpg : string := "/home/jovyan/tmp/raw_photo1.jpg".

(** * Properties *)

(** ** The string operations on examples *)

Example split_listed_path :
  Py.split "/" "/remote.php/dav/_raw/raw_1.jpg" = [""; "remote.php"; "dav"; "_raw"; "raw_1.jpg"].
Proof. vm_compute. reflexivity. Qed.

Example split_doubled_separator : Py.split "/" "a//b" = ["a"; ""; "b"].
Proof. vm_compute. reflexivity. Qed.

Example basename_of_directory : Py.basename "/remote.php/dav/_raw/" = "".
Proof. vm_compute. reflexivity. Qed.

Example replace_leftmost_first : Py.replace "aaa" "aa" "b" = "ba".
Proof. vm_compute. reflexivity. Qed.

Example replace_with_empty_pattern : Py.replace "abc" "" "-" = "-a-b-c-".
Proof. vm_compute. reflexivity. Qed.

Example replace_marker_twice : Py.replace "ai:thai:food" "ai:" "" = "thfood".
Proof. vm_compute. reflexivity. Qed.

Example join_relative : Py.os_path_join "/home/jovyan/tmp" "raw_1.jpg" = "/home/jovyan/tmp/raw_1.jpg".
Proof. vm_compute. reflexivity. Qed.

Example join_absolute : Py.os_path_join "/home/jovyan/tmp" "/etc/raw_1.jpg" = "/etc/raw_1.jpg".
Proof. vm_compute. reflexivity. Qed.

Example new_name_example :
  Scaler.new_name "20240101120000" 1000 = "jh_rescaler_20240101120000_1000.png".
Proof. vm_compute. reflexivity. Qed.

(** ** String operations *)

Lemma split_not_nil (sep : ascii) (s : string) : Py.split sep s <> [].
Proof.
  destruct s as [|c s]; simpl; [discriminate|].
  destruct (Ascii.eqb c sep); [discriminate|].
  destruct (Py.split sep s); discriminate.
Qed.

Lemma split_pieces_free (sep : ascii) (s piece : string) :
  In piece (Py.split sep s) -> Py.has_char sep piece = false.
Proof.
  revert piece; induction s as [|c s IH]; simpl; intros piece Hin.
  - destruct Hin as [<-|[]]; reflexivity.
  - destruct (Ascii.eqb c sep) eqn:Hc.
    + destruct Hin as [<-|Hin]; [reflexivity | now apply IH].
    + destruct (Py.split sep s) as [|p ps] eqn:Hs.
      * destruct Hin as [<-|[]]; simpl; now rewrite Hc.
      * destruct Hin as [<-|Hin].
        -- simpl; rewrite Hc; apply IH; now left.
        -- apply IH; now right.
Qed.

Lemma last_In (A : Type) (l : list A) (d : A) : l <> [] -> In (last l d) l.
Proof.
  induction l as [|a l IH]; [congruence|]; intros _.
  destruct l as [|b l]; [now left|].
  right; apply IH; discriminate.
Qed.

(** The base name of a path has no directory component. *)
Lemma basename_no_slash (path : string) : Py.has_char "/" (Py.basename path) = false.
Proof.
  apply split_pieces_free with (s := path).
  apply last_In, split_not_nil.
Qed.

Lemma prefix_append (p s : string) : String.prefix p (p +++ s) = true.
Proof.
  induction p as [|c p IH]; simpl; [now destruct s|].
  destruct (ascii_dec c c); [exact IH | congruence].
Qed.

Lemma replace_scan_skip (old new x rest : string) :
  Py.replace_scan old new (String.length x) (x +++ rest) = Py.replace_scan old new 0 rest.
Proof.
  induction x as [|c x IH]; simpl; [now destruct rest|exact IH].
Qed.

(** On a name that starts with the literal, [replace] removes it and goes on
    replacing in what follows. *)
Lemma replace_leading (old rest : string) :
  old <> EmptyString ->
  Py.replace (old +++ rest) old "" = Py.replace rest old "".
Proof.
  destruct old as [|c old]; [congruence|]; intros _.
  unfold Py.replace.
  change (String c old +++ rest) with (String c (old +++ rest)).
  cbn [Py.replace_scan].
  change (String c (old +++ rest)) with (String c old +++ rest).
  rewrite prefix_append.
  cbn [String.length Nat.sub]. rewrite Nat.sub_0_r.
  now rewrite replace_scan_skip.
Qed.

Lemma replace_scan_absent (old new s : string) :
  Py.occurs old s = false -> Py.replace_scan old new 0 s = s.
Proof.
  induction s as [|c s IH]; [reflexivity|].
  cbn [Py.occurs Py.replace_scan]; intros H.
  apply orb_false_iff in H as [Hp Ho].
  rewrite Hp. now rewrite IH.
Qed.

(** ** Relocation: the destination path *)

Section MoverDestination.
Variable cfg : Mover.config.
Variable env : Mover.environment.

(** The first thing [move_image] does is to ask for the move to
    [target_path] of the first tag; the other tags play no part. *)
Lemma move_image_first_event (n : Mover.node) (first : Mover.tag) (others : list Mover.tag)
      (s : Mover.state) :
  exists failure rest,
    Eff.events (Mover.move_image cfg env n (first :: others) s)
    = Mover.Remote (Mover.CallMove n (Mover.target_path cfg n (Mover.display_name first)))
                   failure :: rest.
Proof.
  unfold Mover.move_image, Eff.bind, Mover.remote; simpl.
  destruct (Mover.move env (Mover.clock s) n _); simpl.
  - destruct (Mover.unassign_tag env _ n _); simpl; eauto.
  - eauto.
Qed.

(** Where the category does not itself contain the marker literal, the
    code and its documentation agree. *)
Lemma target_path_marked_category (n : Mover.node) (category : string) :
  Py.occurs (Mover.PARENT_TAG_VALUE cfg +++ ":") category = false ->
  Mover.target_path cfg n ((Mover.PARENT_TAG_VALUE cfg +++ ":") +++ category)
  = Mover.IMAGES_ROOT_DIR cfg +++ "/" +++ category +++ "/" +++ Py.basename (Mover.user_path n).
Proof.
  intros Habsent. unfold Mover.target_path.
  rewrite replace_leading.
  - unfold Py.replace.
    destruct (Mover.PARENT_TAG_VALUE cfg +++ ":") eqn:Hold.
    + destruct (Mover.PARENT_TAG_VALUE cfg); discriminate.
    + now rewrite replace_scan_absent.
  - destruct (Mover.PARENT_TAG_VALUE cfg); discriminate.
Qed.
End MoverDestination.

(** The example of the documentation: with marker [ai], the tag [ai:cats]
    sends a file below [IMAGES_ROOT_DIR/cats]. *)
Lemma target_path_ai_cats (root unsorted : string) (n : Mover.node) :
  Mover.target_path (Mover.mkConfig root unsorted "ai") n "ai:cats"
  = root +++ "/cats/" +++ Py.basename (Mover.user_path n).
Proof.
  unfold Mover.target_path; simpl.
  reflexivity.
Qed.

(** C1.  The destination of [move_image] is NOT, in general, the tag name with
    only its leading marker removed: [replace] removes every occurrence of
    ['PARENT_TAG_VALUE:'].  With marker [ai] the tag [ai:thai:food], whose
    category is [thai:food], is moved below [/Photos/thfood], whereas the
    documented destination is below [/Photos/thai:food]. *)
Theorem move_image_replaces_every_marker :
  (forall env s, exists failure rest,
      Eff.events (Mover.move_image mover_cfg env photo [thai_food] s)
      = Mover.Remote
          (Mover.CallMove photo "/Photos/thfood/jh_rescaler_20240101120000_7.png")
          failure :: rest)
  /\ documented_target_path mover_cfg photo (Mover.display_name thai_food)
     = "/Photos/thai:food/jh_rescaler_20240101120000_7.png".
Proof.
  split.
  - intros env s.
    destruct (move_image_first_event mover_cfg env photo thai_food [] s)
      as (failure & rest & H).
    exists failure, rest. exact H.
  - reflexivity.
Qed.

(** ** The retry wrapper *)

Section RetryWrapper.
Variables A B : Type.
Variable method : A -> Scaler.M B.
Variable args : A.

Let wrapped (fuel : nat) : Scaler.M B := Scaler.webdav_exception_handler fuel method args.

Lemma wrapper_returns (fuel : nat) (s : Scaler.state) (v : B) :
  Eff.res (method args s) = Ret v -> wrapped (S fuel) s = method args s.
Proof. unfold wrapped; simpl; intros ->; reflexivity. Qed.

Lemma wrapper_stops (fuel : nat) (s : Scaler.state) :
  Eff.res (method args s) = Diverge -> wrapped (S fuel) s = method args s.
Proof. unfold wrapped; simpl; intros ->; reflexivity. Qed.

Lemma wrapper_propagates (fuel : nat) (s : Scaler.state) (e : exn) :
  Eff.res (method args s) = Raise e ->
  Scaler.is_connection_error e = false ->
  wrapped (S fuel) s = method args s.
Proof. unfold wrapped; simpl; intros -> ->; reflexivity. Qed.

Lemma wrapper_retries (fuel : nat) (s : Scaler.state) (e : exn) :
  Eff.res (method args s) = Raise e ->
  Scaler.is_connection_error e = true ->
  wrapped (S fuel) s
  = let again := wrapped fuel (Eff.final (method args s)) in
    Eff.mkRun (Eff.res again) (Eff.final again)
              (Eff.events (method args s) ++ Scaler.Sleep 180 :: Eff.events again).
Proof.
  unfold wrapped; simpl; intros -> ->.
  unfold Eff.bind, Scaler.time_sleep, Eff.emit.
  destruct (Scaler.webdav_exception_handler fuel method args _); reflexivity.
Qed.

Lemma wrapper_after_failures (N : nat) :
  forall (ss : nat -> Scaler.state) (from fuel : nat) (v : B),
    (forall i, from <= i < from + N ->
               exists e, Eff.res (method args (ss i)) = Raise e
                         /\ Scaler.is_connection_error e = true
                         /\ Eff.final (method args (ss i)) = ss (S i)) ->
    Eff.res (method args (ss (from + N))) = Ret v ->
    N < fuel ->
    wrapped fuel (ss from)
    = Eff.mkRun (Ret v) (Eff.final (method args (ss (from + N))))
                (attempts_with_sleep method args ss from N ++ Eff.events (method args (ss (from + N)))).
Proof.
  induction N as [|N IH]; intros ss from fuel v Hfail Hok Hfuel.
  - destruct fuel as [|fuel]; [lia|].
    rewrite Nat.add_0_r in *.
    rewrite (wrapper_returns fuel _ Hok).
    destruct (method args (ss from)) as [r f evs]; simpl in *; now subst r.
  - destruct fuel as [|fuel]; [lia|].
    destruct (Hfail from ltac:(lia)) as (e & Hres & Hconn & Hnext).
    rewrite (wrapper_retries fuel _ Hres Hconn), Hnext.
    replace (from + S N) with (S from + N) in * by lia.
    rewrite (IH ss (S from) fuel v); [|intros i Hi; apply Hfail; lia|assumption|lia].
    cbv zeta; unfold attempts_with_sleep; simpl.
    now rewrite <- !app_assoc.
Qed.

Lemma wrapper_never_gives_up (fuel : nat) :
  forall s,
    (forall s', exists e, Eff.res (method args s') = Raise e
                          /\ Scaler.is_connection_error e = true) ->
    Eff.res (wrapped fuel s) = Diverge.
Proof.
  induction fuel as [|fuel IH]; intros s Hall; [reflexivity|].
  destruct (Hall s) as (e & Hres & Hconn).
  rewrite (wrapper_retries fuel _ Hres Hconn); simpl.
  now apply IH.
Qed.

(** C2.  The wrapper around a call of [method] on [args]:
    - when the call raises a connection error, it sleeps 180 seconds and
      makes the same call again, in the state the failed call left;
    - when the call raises anything else, the wrapper ends exactly as the
      call did;
    - there is no retry limit: after [N] connection errors in a row (for
      any [N]) followed by a call that returns [v], the wrapper returns [v]
      and its events are those of the [N + 1] calls with exactly one
      180-second sleep after each of the [N] failed ones; if every call
      raises a connection error the wrapper never ends. *)
Theorem webdav_exception_handler_retries :
  (forall fuel s e,
      Eff.res (method args s) = Raise e ->
      Scaler.is_connection_error e = true ->
      Scaler.webdav_exception_handler (S fuel) method args s
      = let again := Scaler.webdav_exception_handler fuel method args
                       (Eff.final (method args s)) in
        Eff.mkRun (Eff.res again) (Eff.final again)
                  (Eff.events (method args s) ++ Scaler.Sleep 180 :: Eff.events again))
  /\ (forall fuel s e,
         Eff.res (method args s) = Raise e ->
         Scaler.is_connection_error e = false ->
         Scaler.webdav_exception_handler (S fuel) method args s = method args s)
  /\ (forall N (ss : nat -> Scaler.state) fuel v,
         (forall i, i < N ->
                    exists e, Eff.res (method args (ss i)) = Raise e
                              /\ Scaler.is_connection_error e = true
                              /\ Eff.final (method args (ss i)) = ss (S i)) ->
         Eff.res (method args (ss N)) = Ret v ->
         N < fuel ->
         Scaler.webdav_exception_handler fuel method args (ss 0)
         = Eff.mkRun (Ret v) (Eff.final (method args (ss N)))
                     (attempts_with_sleep method args ss 0 N ++ Eff.events (method args (ss N))))
  /\ (forall fuel s,
         (forall s', exists e, Eff.res (method args s') = Raise e
                               /\ Scaler.is_connection_error e = true) ->
         Eff.res (Scaler.webdav_exception_handler fuel method args s) = Diverge).
Proof.
  repeat split.
  - intros fuel s e; apply wrapper_retries.
  - intros fuel s e; apply wrapper_propagates.
  - intros N ss fuel v Hfail Hok Hfuel.
    apply (wrapper_after_failures (N := N) ss (from := 0)); auto.
    intros i Hi; apply Hfail; lia.
  - intros fuel s; apply wrapper_never_gives_up.
Qed.
End RetryWrapper.

(** Two lost connections, then the download goes through: the wrapped
    [download_image] returns after two sleeps. *)
Lemma webdav_exception_handler_retries_witness :
  Scaler.webdav_exception_handler 3
    (Scaler.download_image_undecorated scaler_cfg (flaky_env 2))
    (raw_photo, Scaler.WORKDIR scaler_cfg) (Scaler.mkState [] 0)
  = Eff.mkRun (Ret tt)
      (Scaler.mkState ["/home/jovyan/tmp/raw_photo1.jpg"] 3)
      [ Scaler.Remote (Scaler.CallDownload "_raw/raw_photo1.jpg" "/home/jovyan/tmp/raw_photo1.jpg")
                      (Some NoConnection);
        Scaler.Sleep 180;
        Scaler.Remote (Scaler.CallDownload "_raw/raw_photo1.jpg" "/home/jovyan/tmp/raw_photo1.jpg")
                      (Some NoConnection);
        Scaler.Sleep 180;
        Scaler.Remote (Scaler.CallDownload "_raw/raw_photo1.jpg" "/home/jovyan/tmp/raw_photo1.jpg")
                      None ].
Proof.
  apply (proj1 (proj2 (proj2
           (webdav_exception_handler_retries
              (Scaler.download_image_undecorated scaler_cfg (flaky_env 2))
              (raw_photo, Scaler.WORKDIR scaler_cfg))))
           2 (fun i => Scaler.mkState [] i) 3 tt).
  - intros i Hi. exists NoConnection.
    destruct i as [|[|i]]; [repeat split; reflexivity ..|lia].
  - reflexivity.
  - lia.
Defined.

(** ** Discovery: the prefix filter *)

Section Discovery.
Variable cfg : Scaler.config.
Variable env : Scaler.environment.

(** A well-formed entry never raises: it is appended exactly when the
    prefix predicate holds. *)
Lemma try_entry_well_formed (file : pyvalue) :
  well_formed file = true ->
  Scaler.try_entry cfg file
  = Returns (if selected cfg file then Some (entry_path file) else None).
Proof.
  unfold well_formed, Scaler.try_entry, selected, entry_path, entry_is_directory,
    Py.basename.
  destruct file as [| | | |items|fields]; try discriminate; simpl.
  destruct (PyVal.lookup "path" fields) as [[| | |p| |]|]; try discriminate; simpl.
  destruct (PyVal.lookup "isdir" fields) as [isdir|]; [intros _|discriminate].
  destruct (Py.any_startswith _ _); simpl; [|reflexivity].
  destruct (PyVal.truthy isdir); reflexivity.
Qed.

(** Any other entry is never appended: either processing it raises an
    exception the handler catches, or the name test fails before ['isdir']
    is looked up and the entry is passed over without a word. *)
Lemma try_entry_malformed (file : pyvalue) :
  well_formed file = false ->
  (exists e, Scaler.try_entry cfg file = Raises e
             /\ Scaler.entry_handler_catches e = true)
  \/ (Scaler.try_entry cfg file = Returns None
      /\ PyVal.subscript file "isdir" = Raises KeyError
      /\ Py.any_startswith (Py.basename (entry_path file))
                           (Scaler.RAW_NAMES_PREFIXES cfg) = false).
Proof.
  unfold well_formed, Scaler.try_entry, entry_path, Py.basename.
  destruct file as [| | | |items|fields]; simpl;
    try (intros _; left; exists TypeError; split; reflexivity).
  destruct (PyVal.lookup "path" fields) as [[| | |p| |]|]; simpl;
    try (intros _; left; exists AttributeError; split; reflexivity);
    try (intros _; left; exists KeyError; split; reflexivity).
  destruct (PyVal.lookup "isdir" fields) as [isdir|]; [discriminate|intros _].
  destruct (Py.any_startswith _ _).
  - left; exists KeyError; split; reflexivity.
  - right; repeat split.
Qed.

Lemma scan_entries_run (all_files : list pyvalue) :
  forall (files_for_processing : list string) (s : Scaler.state),
    Scaler.scan_entries cfg all_files files_for_processing s
    = Eff.mkRun
        (Ret (files_for_processing
              ++ map entry_path (filter (selected cfg) (filter well_formed all_files))))
        s
        (flat_map (entry_report cfg) all_files).
Proof.
  induction all_files as [|file rest IH]; intros acc s; simpl.
  - unfold Eff.ret; now rewrite app_nil_r.
  - unfold entry_report at 1.
    destruct (well_formed file) eqn:Hwf.
    + rewrite (try_entry_well_formed _ Hwf); simpl.
      destruct (selected cfg file); simpl.
      * rewrite IH. now rewrite <- app_assoc.
      * now rewrite IH.
    + destruct (try_entry_malformed _ Hwf) as [(e & -> & Hcatch)|(-> & _)].
      * rewrite Hcatch. unfold Eff.bind, Eff.emit; simpl. now rewrite IH.
      * now rewrite IH.
Qed.

(** A listing the store hands over is scanned to the end, whatever it
    holds. *)
Lemma get_images_list_run (fuel : nat) (raw : string) (s : Scaler.state)
      (all_files : list pyvalue) :
  Scaler.webdav_list env (Scaler.clock s) raw = Returns all_files ->
  Scaler.get_images_list cfg env (S fuel) raw s
  = Eff.mkRun
      (Ret (map entry_path (filter (selected cfg) (filter well_formed all_files))))
      (Scaler.tick s)
      (Scaler.Remote (Scaler.CallList raw) None :: flat_map (entry_report cfg) all_files).
Proof.
  intros Hlist.
  unfold Scaler.get_images_list; cbn [Scaler.webdav_exception_handler].
  unfold Scaler.get_images_list_undecorated, Eff.bind, Scaler.remote.
  rewrite Hlist; simpl. now rewrite scan_entries_run.
Qed.

Lemma filter_all (X : Type) (f : X -> bool) (l : list X) :
  Forall (fun x => f x = true) l -> filter f l = l.
Proof.
  induction 1 as [|x l Hx _ IH]; simpl; [reflexivity|].
  now rewrite Hx, IH.
Qed.

(** C6.  On a listing of well-formed entries, discovery returns the paths of
    the entries that are not directories and whose base name starts with
    one of the configured prefixes, in the order of the listing; so a path
    is in the result if and only if it is the path of such an entry. *)
Theorem get_images_list_filters_by_prefix
        (fuel : nat) (raw : string) (s : Scaler.state) (all_files : list pyvalue) :
  Scaler.webdav_list env (Scaler.clock s) raw = Returns all_files ->
  Forall (fun file => well_formed file = true) all_files ->
  let found := map entry_path (filter (selected cfg) all_files) in
  Eff.res (Scaler.get_images_list cfg env (S fuel) raw s) = Ret found
  /\ (forall file, In file all_files ->
        (In file (filter (selected cfg) all_files)
         <-> entry_is_directory file = false
             /\ Py.any_startswith (Py.basename (entry_path file))
                                  (Scaler.RAW_NAMES_PREFIXES cfg) = true))
  /\ (forall path, In path found
        <-> exists file, In file all_files /\ entry_path file = path
                         /\ entry_is_directory file = false
                         /\ Py.any_startswith (Py.basename path)
                                              (Scaler.RAW_NAMES_PREFIXES cfg) = true).
Proof.
  intros Hlist Hwf found.
  assert (Hsel : forall file, selected cfg file = true
                 <-> entry_is_directory file = false
                     /\ Py.any_startswith (Py.basename (entry_path file))
                                          (Scaler.RAW_NAMES_PREFIXES cfg) = true).
  { intros file; unfold selected.
    rewrite andb_true_iff, negb_true_iff. tauto. }
  split; [|split].
  - rewrite (get_images_list_run fuel raw s Hlist); simpl.
    now rewrite (filter_all _ Hwf).
  - intros file Hin. rewrite filter_In, Hsel. tauto.
  - intros path; unfold found. rewrite in_map_iff. split.
    + intros (file & Hpath & Hin). apply filter_In in Hin as [Hin Hs].
      apply Hsel in Hs as [Hdir Hname].
      exists file. subst path. auto.
    + intros (file & Hin & Hpath & Hdir & Hname).
      exists file. split; [assumption|].
      apply filter_In. split; [assumption|]. apply Hsel. subst path. auto.
Qed.
End Discovery.

Lemma get_images_list_filters_by_prefix_witness :
  Eff.res (Scaler.get_images_list scaler_cfg (listing_env raw_listing) 1 "_raw"
                                  (Scaler.mkState [] 0))
  = Ret [ "/remote.php/dav/files/jovyan/_raw/raw_photo1.jpg";
          "/remote.php/dav/files/jovyan/_raw/image_2.png" ].
Proof.
  assert (Hwf : Forall (fun file => well_formed file = true) raw_listing)
    by (repeat constructor).
  destruct (get_images_list_filters_by_prefix scaler_cfg (listing_env raw_listing) 0 "_raw"
              (Scaler.mkState [] 0) (all_files := raw_listing) eq_refl Hwf) as [H _].
  vm_compute in H. vm_compute. exact H.
Defined.

(** ** Discovery: entries that cannot be processed *)

Section MalformedEntries.
Variable cfg : Scaler.config.
Variable env : Scaler.environment.

(** C7, as the code has it.  Whatever the listing holds, the scan reaches
    its end and returns the filtered result over the well-formed entries
    alone.  An entry whose processing raises is caught on its own and
    reported with its raw data, and processing a well-formed entry never
    raises.  An entry that is not well formed either raises (and is
    reported), or lacks ['isdir'] under a name that matches no prefix: the
    lookup is then never made and the entry is passed over without a
    report. *)
Theorem get_images_list_skips_malformed
        (fuel : nat) (raw : string) (s : Scaler.state) (all_files : list pyvalue) :
  Scaler.webdav_list env (Scaler.clock s) raw = Returns all_files ->
  Eff.res (Scaler.get_images_list cfg env (S fuel) raw s)
  = Ret (map entry_path (filter (selected cfg) (filter well_formed all_files)))
  /\ Eff.events (Scaler.get_images_list cfg env (S fuel) raw s)
     = Scaler.Remote (Scaler.CallList raw) None :: flat_map (entry_report cfg) all_files
  /\ (forall file, well_formed file = true -> entry_report cfg file = [])
  /\ (forall file, well_formed file = false ->
        (exists e, Scaler.try_entry cfg file = Raises e
                   /\ Scaler.entry_handler_catches e = true
                   /\ entry_report cfg file = [Scaler.EntryError e file])
        \/ (PyVal.subscript file "isdir" = Raises KeyError
            /\ Py.any_startswith (Py.basename (entry_path file))
                                 (Scaler.RAW_NAMES_PREFIXES cfg) = false
            /\ entry_report cfg file = [])).
Proof.
  intros Hlist.
  rewrite (get_images_list_run cfg env fuel raw s Hlist); simpl.
  repeat split.
  - intros file Hwf. unfold entry_report.
    now rewrite (try_entry_well_formed cfg _ Hwf).
  - intros file Hwf. unfold entry_report.
    destruct (try_entry_malformed cfg _ Hwf) as [(e & He & Hcatch)|(He & Hdir & Hname)].
    + left. exists e. now rewrite He.
    + right. now rewrite He.
Qed.
End MalformedEntries.

Lemma get_images_list_skips_malformed_witness :
  Eff.res (Scaler.get_images_list scaler_cfg
             (listing_env (PyNone :: PyDict [("path", PyInt 3)] :: raw_listing))
             1 "_raw" (Scaler.mkState [] 0))
  = Ret [ "/remote.php/dav/files/jovyan/_raw/raw_photo1.jpg";
          "/remote.php/dav/files/jovyan/_raw/image_2.png" ].
Proof.
  destruct (get_images_list_skips_malformed scaler_cfg
              (listing_env (PyNone :: PyDict [("path", PyInt 3)] :: raw_listing))
              0 "_raw" (Scaler.mkState [] 0)
              (all_files := PyNone :: PyDict [("path", PyInt 3)] :: raw_listing) eq_refl)
    as [H _].
  vm_compute in H. vm_compute. exact H.
Defined.

(** C7, as stated, fails: an entry that misses ['isdir'] is malformed, yet
    under a name that matches no prefix it is not caught and nothing is
    reported for it. *)
Lemma malformed_entry_not_reported :
  well_formed notes_without_isdir = false
  /\ Scaler.get_images_list scaler_cfg (listing_env [notes_without_isdir]) 1 "_raw"
                            (Scaler.mkState [] 0)
     = Eff.mkRun (Ret []) (Scaler.mkState [] 1)
                 [Scaler.Remote (Scaler.CallList "_raw") None].
Proof. split; vm_compute; reflexivity. Qed.

(** ** Reasoning about wrapped calls *)

Section WrapperInduction.
Variables A B : Type.
Variable method : A -> Scaler.M B.
Variable args : A.

(** Whatever holds of a run that ends without a connection error, and is
    kept by one more failed attempt and its sleep in front, holds of every
    run of the wrapper. *)
Lemma wrapper_ind (P : Scaler.state -> Eff.run Scaler.state Scaler.event B -> Prop) :
  (forall s, P s (Eff.mkRun Diverge s [])) ->
  (forall s, (forall e, Eff.res (method args s) = Raise e ->
                        Scaler.is_connection_error e = false) ->
             P s (method args s)) ->
  (forall s e r,
      Eff.res (method args s) = Raise e ->
      Scaler.is_connection_error e = true ->
      P (Eff.final (method args s)) r ->
      P s (Eff.mkRun (Eff.res r) (Eff.final r)
                     (Eff.events (method args s) ++ Scaler.Sleep 180 :: Eff.events r))) ->
  forall fuel s, P s (Scaler.webdav_exception_handler fuel method args s).
Proof.
  intros Hout Hend Hretry.
  induction fuel as [|fuel IH]; intros s; [apply Hout|].
  destruct (Eff.res (method args s)) as [v|e|] eqn:Hres.
  - rewrite (wrapper_returns method args fuel s Hres).
    apply Hend. intros e He; congruence.
  - destruct (Scaler.is_connection_error e) eqn:Hconn.
    + rewrite (wrapper_retries method args fuel s Hres Hconn).
      apply (Hretry s e _ Hres Hconn), IH.
    + rewrite (wrapper_propagates method args fuel s Hres Hconn).
      apply Hend. intros e' He'; congruence.
  - rewrite (wrapper_stops method args fuel s Hres).
    apply Hend. intros e He; congruence.
Qed.

(** A connection error never leaves the wrapper. *)
Lemma wrapper_absorbs_connection_errors (fuel : nat) (s : Scaler.state) (e : exn) :
  Eff.res (Scaler.webdav_exception_handler fuel method args s) = Raise e ->
  Scaler.is_connection_error e = false.
Proof.
  revert e. pattern s, (Scaler.webdav_exception_handler fuel method args s).
  apply wrapper_ind; simpl; auto.
  intros s0 e; discriminate.
Qed.

Lemma wrapper_events (P : Scaler.event -> Prop) :
  P (Scaler.Sleep 180) ->
  (forall s, Forall P (Eff.events (method args s))) ->
  forall fuel s, Forall P (Eff.events (Scaler.webdav_exception_handler fuel method args s)).
Proof.
  intros Hsleep Hmethod fuel s.
  pattern s, (Scaler.webdav_exception_handler fuel method args s).
  apply wrapper_ind; simpl; auto.
  intros s0 e r _ _ Hr. apply Forall_app; split; auto.
Qed.

(** A property of the state that every attempt keeps is kept by the
    wrapper. *)
Lemma wrapper_keeps (I : Scaler.state -> Prop) :
  (forall s, I s -> I (Eff.final (method args s))) ->
  forall fuel s, I s -> I (Eff.final (Scaler.webdav_exception_handler fuel method args s)).
Proof.
  intros Hmethod fuel s.
  pattern s, (Scaler.webdav_exception_handler fuel method args s).
  apply wrapper_ind; simpl; auto.
Qed.

(** When the wrapper returns, its last attempt returned. *)
Lemma wrapper_returned (fuel : nat) (s : Scaler.state) (v : B) :
  Eff.res (Scaler.webdav_exception_handler fuel method args s) = Ret v ->
  exists s' before,
    Eff.res (method args s') = Ret v
    /\ Eff.final (Scaler.webdav_exception_handler fuel method args s)
       = Eff.final (method args s')
    /\ Eff.events (Scaler.webdav_exception_handler fuel method args s)
       = before ++ Eff.events (method args s').
Proof.
  pattern s, (Scaler.webdav_exception_handler fuel method args s).
  apply wrapper_ind; simpl.
  - discriminate.
  - intros s0 _ Hres. exists s0, []. auto.
  - intros s0 e r _ _ IH Hres.
    destruct (IH Hres) as (s' & before & H1 & H2 & H3).
    exists s', (Eff.events (method args s0) ++ Scaler.Sleep 180 :: before).
    repeat split; auto. rewrite H3. now rewrite <- app_assoc.
Qed.
End WrapperInduction.

(** ** Local paths *)

Lemma append_cancel (x a b : string) : x +++ a = x +++ b -> a = b.
Proof. induction x as [|c x IH]; simpl; intros H; [assumption|]. injection H; auto. Qed.

Lemma append_assoc (a b c : string) : (a +++ b) +++ c = a +++ b +++ c.
Proof. induction a as [|x a IH]; simpl; [reflexivity|now rewrite IH]. Qed.

Lemma split_no_sep (sep : ascii) (t : string) :
  Py.has_char sep t = false -> Py.split sep t = [t].
Proof.
  induction t as [|c t IH]; simpl; [reflexivity|].
  intros H. apply orb_false_iff in H as [Hc Ht].
  rewrite Hc, (IH Ht). reflexivity.
Qed.

Lemma split_append_sep (sep : ascii) (t x : string) :
  Py.has_char sep t = false ->
  exists p pre, Py.split sep (x +++ String sep t) = p :: pre ++ [t].
Proof.
  intros Ht. induction x as [|c x (p & pre & IH)]; simpl.
  - rewrite Ascii.eqb_refl, (split_no_sep _ _ Ht). now exists EmptyString, [].
  - rewrite IH. destruct (Ascii.eqb c sep).
    + now exists EmptyString, (p :: pre).
    + now exists (String c p), pre.
Qed.

Lemma basename_append_slash (x t : string) :
  Py.has_char "/" t = false -> Py.basename (x +++ String "/" t) = t.
Proof.
  intros Ht. unfold Py.basename, Py.last_piece.
  destruct (@split_append_sep "/" t x Ht) as (p & pre & ->).
  change (p :: pre ++ [t]) with ((p :: pre) ++ [t]).
  apply last_last.
Qed.

Lemma startswith_slash_free (b : string) :
  Py.has_char "/" b = false -> Py.startswith b "/" = false.
Proof.
  destruct b as [|c b]; [reflexivity|].
  cbn [Py.has_char]. intros H. apply orb_false_iff in H as [Hc _].
  change (Py.startswith (String c b) "/")
    with (if ascii_dec "/" c then String.prefix EmptyString b else false).
  destruct (ascii_dec "/" c) as [<-|]; [discriminate|reflexivity].
Qed.

(** [os.path.join] of a directory [.../d] with a relative name. *)
Lemma os_path_join_plain (cwd d b : string) :
  Py.has_char "/" d = false -> d <> EmptyString ->
  Py.startswith b "/" = false ->
  Py.os_path_join (cwd +++ String "/" d) b = (cwd +++ String "/" d) +++ "/" +++ b.
Proof.
  intros Hd Hne Hb. unfold Py.os_path_join. rewrite Hb.
  assert (Hempty : String.eqb (cwd +++ String "/" d) EmptyString = false)
    by (destruct cwd; reflexivity).
  rewrite Hempty; simpl orb.
  unfold Py.endswith_slash.
  change (Py.last_piece (Py.split "/" (cwd +++ String "/" d)))
    with (Py.basename (cwd +++ String "/" d)).
  rewrite (basename_append_slash cwd d Hd).
  destruct (cwd +++ String "/" d); [reflexivity|].
  destruct d; [congruence|reflexivity].
Qed.

Lemma file_in_cons (p q : string) (files : list string) :
  Scaler.file_in p (q :: files) = (String.eqb p q || Scaler.file_in p files)%bool.
Proof. reflexivity. Qed.

Lemma file_in_remove (p q : string) (files : list string) :
  Scaler.file_in p (filter (fun x => negb (String.eqb q x)) files)
  = (negb (String.eqb q p) && Scaler.file_in p files)%bool.
Proof.
  induction files as [|x files IH]; simpl; [now rewrite andb_false_r|].
  destruct (String.eqb q x) eqn:Hqx; simpl.
  - rewrite IH. apply String.eqb_eq in Hqx; subst x.
    rewrite (String.eqb_sym p q).
    destruct (String.eqb q p); reflexivity.
  - change (existsb (String.eqb p) ?l) with (Scaler.file_in p l).
    rewrite IH.
    destruct (String.eqb p x) eqn:Hpx; simpl.
    + apply String.eqb_eq in Hpx; subst x. rewrite Hqx. reflexivity.
    + reflexivity.
Qed.

(** Runs the monadic plumbing of a computation, leaving the calls of the
    outside world and the path arithmetic as they are. *)
Ltac run_eff :=
  cbv beta iota zeta delta
      [Eff.bind Eff.ret Eff.raise Eff.emit Eff.res Eff.final Eff.events
       Scaler.external Scaler.remote Scaler.os_path_exists Scaler.os_remove
       Scaler.create_file Scaler.time_sleep Scaler.fs Scaler.clock Scaler.tick];
  cbn [app].

(** ** The stages of the transform pipeline *)

Section Stages.
Variable cfg : Scaler.config.
Variable env : Scaler.environment.

Lemma download_image_events (fuel : nat) (file : string) (s : Scaler.state) :
  Forall (download_or_sleep cfg file)
         (Eff.events (Scaler.download_image cfg env fuel file (Scaler.WORKDIR cfg) s)).
Proof.
  unfold Scaler.download_image.
  apply wrapper_events; [now left|].
  intros s0. unfold Scaler.download_image_undecorated, Eff.bind, Scaler.remote.
  destruct (Scaler.download_sync env _ _ _); simpl;
    (apply Forall_cons; [right; eexists; reflexivity | apply Forall_nil]).
Qed.

(** After a download that returned, the staged file is there. *)
Lemma download_image_stages (fuel : nat) (file : string) (s : Scaler.state) (v : unit) :
  Eff.res (Scaler.download_image cfg env fuel file (Scaler.WORKDIR cfg) s) = Ret v ->
  Scaler.file_in (Scaler.WORKDIR cfg +++ "/" +++ Py.basename file)
    (Scaler.fs (Eff.final (Scaler.download_image cfg env fuel file (Scaler.WORKDIR cfg) s)))
  = true.
Proof.
  intros Hret. unfold Scaler.download_image in *.
  destruct (wrapper_returned _ _ _ _ Hret) as (s' & before & Hres & -> & _).
  revert Hres.
  unfold Scaler.download_image_undecorated, Eff.bind, Scaler.remote.
  destruct (Scaler.download_sync env _ _ _); simpl; [intros _|discriminate].
  now rewrite String.eqb_refl.
Qed.

Lemma staged_input_path (file : string) :
  staged_input cfg file = Scaler.WORKDIR cfg +++ "/" +++ Py.basename file.
Proof.
  unfold staged_input, Scaler.WORKDIR.
  apply (@os_path_join_plain (Scaler.getcwd cfg) "tmp" (Py.basename file));
    [reflexivity|discriminate|].
  apply startswith_slash_free, basename_no_slash.
Qed.

Lemma transform_output_path (t : nat) :
  transform_output cfg env t = Scaler.OUTPUT_DIR cfg +++ "/" +++ generated_name env t.
Proof.
  unfold transform_output, Scaler.OUTPUT_DIR.
  apply (@os_path_join_plain (Scaler.getcwd cfg) "output" (generated_name env t));
    [reflexivity|discriminate|reflexivity].
Qed.

(** The transform never writes over the file it reads. *)
Lemma output_is_not_input (file : string) (t : nat) :
  String.eqb (staged_input cfg file) (transform_output cfg env t) = false.
Proof.
  apply String.eqb_neq. rewrite staged_input_path, transform_output_path.
  unfold Scaler.WORKDIR, Scaler.OUTPUT_DIR. rewrite !append_assoc.
  intros H. apply append_cancel in H. discriminate.
Qed.

Lemma increase_resolution_events (file_name : string) (scale : Z) (s : Scaler.state) :
  Eff.events (Scaler.increase_resolution cfg env file_name scale s) = [].
Proof.
  unfold Scaler.increase_resolution. run_eff.
  destruct (Scaler.imread env _ _) as [[[h w]|]|]; run_eff; try reflexivity.
  destruct (Scaler.resize env _ _ _); run_eff; try reflexivity.
  destruct (Scaler.imwrite env _ _ _) as [[|]|]; run_eff; try reflexivity;
    repeat (match goal with |- context [if ?b then _ else _] => destruct b end; run_eff);
    reflexivity.
Qed.

Lemma increase_resolution_name (file_name : string) (scale : Z) (s : Scaler.state)
      (new_file_name : string) :
  Eff.res (Scaler.increase_resolution cfg env file_name scale s) = Ret new_file_name ->
  new_file_name = generated_name env (Scaler.clock s).
Proof.
  unfold Scaler.increase_resolution, generated_name. run_eff.
  destruct (Scaler.imread env _ _) as [[[h w]|]|]; run_eff; try discriminate.
  destruct (Scaler.resize env _ _ _); run_eff; try discriminate.
  destruct (Scaler.imwrite env _ _ _) as [[|]|]; run_eff; try discriminate;
    repeat (match goal with |- context [if ?b then _ else _] => destruct b end; run_eff);
    try discriminate; intros H; injection H; auto.
Qed.
(** When the transform leaves no output file, it has not touched the
    local files at all. *)
Lemma increase_resolution_without_output (file : string) (scale : Z) (s : Scaler.state) :
  Scaler.file_in (transform_output cfg env (Scaler.clock s))
    (Scaler.fs (Eff.final (Scaler.increase_resolution cfg env (Py.basename file) scale s)))
  = false ->
  Scaler.fs (Eff.final (Scaler.increase_resolution cfg env (Py.basename file) scale s))
  = Scaler.fs s.
Proof.
  destruct s as [files t].
  pose proof (output_is_not_input file t) as Hdiff.
  unfold transform_output, generated_name, staged_input in *.
  unfold Scaler.increase_resolution. run_eff.
  set (output := Py.os_path_join (Scaler.OUTPUT_DIR cfg) _) in *.
  set (input := Py.os_path_join (Scaler.WORKDIR cfg) _) in *.
  destruct (Scaler.imread env _ _) as [[[h w]|]|]; run_eff; try reflexivity.
  destruct (Scaler.resize env _ _ _); run_eff; try reflexivity.
  destruct (Scaler.imwrite env _ _ _) as [[|]|]; run_eff; try reflexivity.
  - rewrite file_in_cons, String.eqb_refl; cbn [orb].
    destruct (Scaler.file_in input (output :: files)); run_eff.
    + rewrite file_in_remove, file_in_cons, String.eqb_refl, Hdiff. discriminate.
    + rewrite file_in_cons, String.eqb_refl. discriminate.
  - destruct (Scaler.file_in output files) eqn:Hout; run_eff; [|reflexivity].
    destruct (Scaler.file_in input files); run_eff; [|reflexivity].
    rewrite file_in_remove, Hdiff, Hout. discriminate.
Qed.

(** Without the local file, an upload cannot return, and it removes
    nothing. *)
Lemma upload_image_without_file (fuel : nat) (local_file_path remote_directory : string)
      (s : Scaler.state) :
  Scaler.file_in local_file_path (Scaler.fs s) = false ->
  (forall v, Eff.res (Scaler.upload_image env fuel local_file_path remote_directory s)
             <> Ret v)
  /\ Scaler.fs (Eff.final (Scaler.upload_image env fuel local_file_path
                                               remote_directory s))
     = Scaler.fs s.
Proof.
  unfold Scaler.upload_image.
  pattern s, (Scaler.webdav_exception_handler fuel (Scaler.upload_image_undecorated env)
                (local_file_path, remote_directory) s).
  apply wrapper_ind; clear s.
  - intros s _. split; [discriminate|reflexivity].
  - intros s _ Habsent. destruct s as [files t].
    unfold Scaler.upload_image_undecorated. run_eff.
    destruct (Scaler.upload_sync env _ _ _); run_eff.
    + cbn [Scaler.fs] in Habsent. rewrite Habsent; run_eff.
      split; [discriminate|reflexivity].
    + split; [discriminate|reflexivity].
  - intros s e r Hres Hconn IH Habsent; cbn [Eff.res Eff.final].
    assert (Hfs : Scaler.fs (Eff.final (Scaler.upload_image_undecorated env
                                          (local_file_path, remote_directory) s))
                  = Scaler.fs s).
    { clear IH Hres. destruct s as [files t].
      unfold Scaler.upload_image_undecorated. run_eff.
      destruct (Scaler.upload_sync env _ _ _); run_eff; [|reflexivity].
      cbn [Scaler.fs] in Habsent. rewrite Habsent; reflexivity. }
    rewrite Hfs in IH. destruct (IH Habsent) as [Hnot Hsame].
    split; [exact Hnot|exact Hsame].
Qed.

Lemma upload_image_events (fuel : nat) (local_file_path remote_directory : string)
      (s : Scaler.state) :
  Forall upload_or_sleep
         (Eff.events (Scaler.upload_image env fuel local_file_path remote_directory s)).
Proof.
  unfold Scaler.upload_image.
  apply wrapper_events; [now left|].
  intros [files t]. unfold Scaler.upload_image_undecorated. run_eff.
  destruct (Scaler.upload_sync env _ _ _); run_eff.
  - destruct (Scaler.file_in local_file_path files); run_eff;
      (apply Forall_cons; [right; do 3 eexists; reflexivity | apply Forall_nil]).
  - apply Forall_cons; [right; do 3 eexists; reflexivity | apply Forall_nil].
Qed.

(** An upload returns only after a call of the store that succeeded. *)
Lemma upload_image_returned (fuel : nat) (local_file_path remote_directory : string)
      (s : Scaler.state) (v : unit) :
  Eff.res (Scaler.upload_image env fuel local_file_path remote_directory s) = Ret v ->
  In (Scaler.Remote
        (Scaler.CallUpload (remote_directory +++ "/" +++ Py.basename local_file_path)
                           local_file_path) None)
     (Eff.events (Scaler.upload_image env fuel local_file_path remote_directory s)).
Proof.
  intros Hret. unfold Scaler.upload_image in *.
  destruct (wrapper_returned _ _ _ _ Hret) as (s' & before & Hres & _ & ->).
  apply in_or_app; right. revert Hres. destruct s' as [files t].
  unfold Scaler.upload_image_undecorated. run_eff.
  destruct (Scaler.upload_sync env _ _ _); run_eff; [|discriminate].
  destruct (Scaler.file_in local_file_path files); run_eff; [|discriminate].
  intros _. now left.
Qed.

Lemma delete_source_image_events (fuel : nat) (file : string) (s : Scaler.state) :
  Forall (clean_or_sleep cfg file)
         (Eff.events (Scaler.delete_source_image env fuel (raw_source cfg file) s)).
Proof.
  unfold Scaler.delete_source_image.
  apply wrapper_events; [now left|].
  intros [files t]. unfold Scaler.delete_source_image_undecorated. run_eff.
  destruct (Scaler.clean env _ _); run_eff;
    (apply Forall_cons; [right; eexists; reflexivity | apply Forall_nil]).
Qed.
End Stages.

(** ** The transform pipeline as a whole *)

Lemma bind_cases (St Ev A B : Type) (m : Eff.M St Ev A) (k : A -> Eff.M St Ev B) (s : St) :
  Eff.bind m k s
  = match Eff.res (m s) with
    | Ret a =>
        Eff.mkRun (Eff.res (k a (Eff.final (m s)))) (Eff.final (k a (Eff.final (m s))))
                  (Eff.events (m s) ++ Eff.events (k a (Eff.final (m s))))
    | Raise e => Eff.mkRun (Raise e) (Eff.final (m s)) (Eff.events (m s))
    | Diverge => Eff.mkRun Diverge (Eff.final (m s)) (Eff.events (m s))
    end.
Proof.
  unfold Eff.bind. destruct (m s) as [[a|e|] s1 evs]; simpl; try reflexivity.
  destruct (k a s1); reflexivity.
Qed.

Section Pipeline.
Variable cfg : Scaler.config.
Variable env : Scaler.environment.

Lemma delete_source_image_returned (fuel : nat) (remote_file_name : string)
      (s : Scaler.state) (v : unit) :
  Eff.res (Scaler.delete_source_image env fuel remote_file_name s) = Ret v ->
  In (Scaler.Remote (Scaler.CallClean remote_file_name) None)
     (Eff.events (Scaler.delete_source_image env fuel remote_file_name s)).
Proof.
  intros Hret. unfold Scaler.delete_source_image in *.
  destruct (wrapper_returned _ _ _ _ Hret) as (s' & before & Hres & _ & ->).
  apply in_or_app; right. revert Hres. destruct s' as [files t].
  unfold Scaler.delete_source_image_undecorated. run_eff.
  destruct (Scaler.clean env _ _); run_eff; [|discriminate].
  intros _. now left.
Qed.

(** The events of a task come in three runs: the download of the raw
    item, the upload of the result, the deletion of the raw item; the
    transform in between emits nothing.  The deletion is reached only
    when the upload has returned. *)
Lemma multi_threading_run_stages (fuel : nat) (file : string) (s : Scaler.state) :
  exists e_download e_upload e_clean,
    Eff.events (Scaler.multi_threading_run cfg env fuel file s)
    = e_download ++ e_upload ++ e_clean
    /\ Forall (download_or_sleep cfg file) e_download
    /\ Forall upload_or_sleep e_upload
    /\ Forall (clean_or_sleep cfg file) e_clean
    /\ (e_clean <> [] ->
        exists remote_path local_path,
          In (Scaler.Remote (Scaler.CallUpload remote_path local_path) None) e_upload)
    /\ (forall v, Eff.res (Scaler.multi_threading_run cfg env fuel file s) = Ret v ->
                  In (Scaler.Remote (Scaler.CallClean (raw_source cfg file)) None) e_clean).
Proof.
  unfold Scaler.multi_threading_run.
  rewrite bind_cases.
  pose proof (download_image_events cfg env fuel file s) as Hdl.
  destruct (Eff.res (Scaler.download_image cfg env fuel file (Scaler.WORKDIR cfg) s))
    as [[]|e|]; cbn [Eff.events Eff.res];
    try (exists (Eff.events (Scaler.download_image cfg env fuel file (Scaler.WORKDIR cfg) s)),
           [], []; rewrite !app_nil_r;
         repeat split; auto; try congruence; discriminate).
  set (s1 := Eff.final (Scaler.download_image cfg env fuel file (Scaler.WORKDIR cfg) s)).
  rewrite bind_cases, increase_resolution_events.
  destruct (Eff.res (Scaler.increase_resolution cfg env (Py.basename file) 2 s1))
    as [processed_file|e|]; cbn [Eff.events Eff.res app];
    try (exists (Eff.events (Scaler.download_image cfg env fuel file (Scaler.WORKDIR cfg) s)),
           [], []; rewrite !app_nil_r;
         repeat split; auto; try congruence; discriminate).
  set (s2 := Eff.final (Scaler.increase_resolution cfg env (Py.basename file) 2 s1)).
  rewrite bind_cases.
  pose proof (upload_image_events env fuel
                (Scaler.OUTPUT_DIR cfg +++ "/" +++ processed_file)
                (Scaler.UNSORTED_REMOTE_DIR cfg) s2) as Hup.
  destruct (Eff.res (Scaler.upload_image env fuel
                       (Scaler.OUTPUT_DIR cfg +++ "/" +++ processed_file)
                       (Scaler.UNSORTED_REMOTE_DIR cfg) s2)) as [[]|e|] eqn:Hres;
    cbn [Eff.events Eff.res];
    try (exists (Eff.events (Scaler.download_image cfg env fuel file (Scaler.WORKDIR cfg) s)),
           (Eff.events (Scaler.upload_image env fuel
                          (Scaler.OUTPUT_DIR cfg +++ "/" +++ processed_file)
                          (Scaler.UNSORTED_REMOTE_DIR cfg) s2)), [];
         rewrite !app_nil_r;
         repeat split; auto; try congruence; discriminate).
  eexists _, _, _. repeat split; eauto.
  - apply (delete_source_image_events cfg env).
  - intros _. do 2 eexists. apply (upload_image_returned _ _ _ _ _ Hres).
  - intros v. apply delete_source_image_returned.
Qed.
End Pipeline.

Section TransformSafety.
Variable cfg : Scaler.config.
Variable env : Scaler.environment.

Lemma download_is_not_clean (file : string) (evs : list Scaler.event) (p : string)
      (f : option exn) :
  Forall (download_or_sleep cfg file) evs -> ~ In (Scaler.Remote (Scaler.CallClean p) f) evs.
Proof.
  intros Hall Hin. rewrite Forall_forall in Hall.
  destruct (Hall _ Hin) as [H|(failure & H)]; discriminate.
Qed.

Lemma upload_is_not_clean (evs : list Scaler.event) (p : string) (f : option exn) :
  Forall upload_or_sleep evs -> ~ In (Scaler.Remote (Scaler.CallClean p) f) evs.
Proof.
  intros Hall Hin. rewrite Forall_forall in Hall.
  destruct (Hall _ Hin) as [H|(r & l & failure & H)]; discriminate.
Qed.

(** C3.  Take a task whose download returned.  If, once the transform is
    over, its output file is not on disk, then at the end of the task the
    staged input file is still on disk, no deletion of the raw item has been
    asked of the store, and the task has not ended normally. *)
Theorem transform_failure_keeps_input (fuel : nat) (file : string) (s : Scaler.state) :
  let downloaded := Scaler.download_image cfg env fuel file (Scaler.WORKDIR cfg) s in
  let transformed :=
    Scaler.increase_resolution cfg env (Py.basename file) 2 (Eff.final downloaded) in
  let task := Scaler.multi_threading_run cfg env fuel file s in
  Eff.res downloaded = Ret tt ->
  Scaler.file_in (transform_output cfg env (Scaler.clock (Eff.final downloaded)))
                 (Scaler.fs (Eff.final transformed)) = false ->
  Scaler.file_in (staged_input cfg file) (Scaler.fs (Eff.final task)) = true
  /\ (forall p f, ~ In (Scaler.Remote (Scaler.CallClean p) f) (Eff.events task))
  /\ (forall v, Eff.res task <> Ret v).
Proof.
  intros downloaded transformed task Hdl Hout.
  pose proof (download_image_stages cfg env fuel file s Hdl) as Hstaged.
  rewrite <- staged_input_path in Hstaged.
  pose proof (increase_resolution_without_output cfg env file 2 _ Hout) as Hfs.
  pose proof (download_image_events cfg env fuel file s) as Hevs.
  fold downloaded in Hstaged, Hfs, Hevs. fold transformed in Hfs.
  unfold task, Scaler.multi_threading_run.
  rewrite bind_cases. fold downloaded. rewrite Hdl.
  rewrite bind_cases.
  rewrite (increase_resolution_events cfg env (Py.basename file) 2 (Eff.final downloaded)).
  fold transformed.
  destruct (Eff.res transformed) as [processed_file|e|] eqn:Hres;
    cbn [Eff.res Eff.final Eff.events app].
  - apply increase_resolution_name in Hres. subst processed_file.
    rewrite <- transform_output_path.
    rewrite bind_cases.
    destruct (upload_image_without_file env fuel _ (Scaler.UNSORTED_REMOTE_DIR cfg)
                _ Hout) as [Hnot Hsame].
    pose proof (upload_image_events env fuel
                  (transform_output cfg env (Scaler.clock (Eff.final downloaded)))
                  (Scaler.UNSORTED_REMOTE_DIR cfg) (Eff.final transformed)) as Hup.
    destruct (Eff.res (Scaler.upload_image env fuel _ _ _)) as [[]|e|];
      cbn [Eff.res Eff.final Eff.events];
      try (exfalso; apply (Hnot tt); reflexivity);
      (split; [now rewrite Hsame, Hfs|]; split; [|discriminate]);
      intros p f Hin; apply in_app_or in Hin as [Hin|Hin];
      [ eapply download_is_not_clean | eapply upload_is_not_clean
      | eapply download_is_not_clean | eapply upload_is_not_clean ]; eauto.
  - rewrite app_nil_r. split; [now rewrite Hfs|]. split; [|discriminate].
    intros p f. now apply download_is_not_clean with (file := file).
  - rewrite app_nil_r. split; [now rewrite Hfs|]. split; [|discriminate].
    intros p f. now apply download_is_not_clean with (file := file).
Qed.
End TransformSafety.

Lemma transform_failure_keeps_input_witness :
  Scaler.file_in (staged_input scaler_cfg raw_photo)
    (Scaler.fs (Eff.final (Scaler.multi_threading_run scaler_cfg no_output_env 1 raw_photo
                                                      (Scaler.mkState [] 0)))) = true
  /\ (forall p f,
         ~ In (Scaler.Remote (Scaler.CallClean p) f)
              (Eff.events (Scaler.multi_threading_run scaler_cfg no_output_env 1 raw_photo
                                                      (Scaler.mkState [] 0))))
  /\ (forall v, Eff.res (Scaler.multi_threading_run scaler_cfg no_output_env 1 raw_photo
                                                    (Scaler.mkState [] 0)) <> Ret v).
Proof.
  apply (transform_failure_keeps_input scaler_cfg no_output_env 1 raw_photo
           (Scaler.mkState [] 0)); vm_compute; reflexivity.
Defined.

(** ** Where a task reads and deletes the raw item *)

Section RawLocation.
Variable cfg : Scaler.config.
Variable env : Scaler.environment.

Lemma download_image_first_event (fuel : nat) (file : string) (s : Scaler.state) :
  exists failure rest,
    Eff.events (Scaler.download_image cfg env (S fuel) file (Scaler.WORKDIR cfg) s)
    = Scaler.Remote
        (Scaler.CallDownload (raw_source cfg file)
                             (Scaler.WORKDIR cfg +++ "/" +++ Py.basename file))
        failure :: rest.
Proof.
  unfold Scaler.download_image.
  assert (Hone : exists failure,
             Eff.events (Scaler.download_image_undecorated cfg env
                           (file, Scaler.WORKDIR cfg) s)
             = [Scaler.Remote
                  (Scaler.CallDownload (raw_source cfg file)
                                       (Scaler.WORKDIR cfg +++ "/" +++ Py.basename file))
                  failure]).
  { destruct s as [files t]. unfold Scaler.download_image_undecorated. run_eff.
    destruct (Scaler.download_sync env _ _ _); run_eff; eexists; reflexivity. }
  destruct Hone as (failure & Hone).
  destruct (Eff.res (Scaler.download_image_undecorated cfg env (file, Scaler.WORKDIR cfg) s))
    as [v|e|] eqn:Hres.
  - rewrite (wrapper_returns _ _ fuel s Hres). rewrite Hone. eauto.
  - destruct (Scaler.is_connection_error e) eqn:Hconn.
    + rewrite (wrapper_retries _ _ fuel s Hres Hconn); cbn [Eff.events].
      rewrite Hone. cbn [app]. eauto.
    + rewrite (wrapper_propagates _ _ fuel s Hres Hconn). rewrite Hone. eauto.
  - rewrite (wrapper_stops _ _ fuel s Hres). rewrite Hone. eauto.
Qed.

(** C10.  In a task for the listed path [file], every download is asked
    from, and every deletion is asked at, [RAW_REMOTE_DIR/<base name of
    file>], where the base name holds no ['/']: the directory part of the
    listed path plays no role.  The task starts with that download and,
    when it ends normally, has made that deletion. *)
Theorem multi_threading_run_uses_raw_dir (fuel : nat) (file : string) (s : Scaler.state) :
  Py.has_char "/" (Py.basename file) = false
  /\ (forall remote_path local_path failure,
         In (Scaler.Remote (Scaler.CallDownload remote_path local_path) failure)
            (Eff.events (Scaler.multi_threading_run cfg env (S fuel) file s)) ->
         remote_path = Scaler.RAW_REMOTE_DIR cfg +++ "/" +++ Py.basename file)
  /\ (forall remote_path failure,
         In (Scaler.Remote (Scaler.CallClean remote_path) failure)
            (Eff.events (Scaler.multi_threading_run cfg env (S fuel) file s)) ->
         remote_path = Scaler.RAW_REMOTE_DIR cfg +++ "/" +++ Py.basename file)
  /\ (exists failure rest,
         Eff.events (Scaler.multi_threading_run cfg env (S fuel) file s)
         = Scaler.Remote
             (Scaler.CallDownload
                (Scaler.RAW_REMOTE_DIR cfg +++ "/" +++ Py.basename file)
                (Scaler.WORKDIR cfg +++ "/" +++ Py.basename file))
             failure :: rest)
  /\ (forall v,
         Eff.res (Scaler.multi_threading_run cfg env (S fuel) file s) = Ret v ->
         In (Scaler.Remote
               (Scaler.CallClean (Scaler.RAW_REMOTE_DIR cfg +++ "/" +++ Py.basename file))
               None)
            (Eff.events (Scaler.multi_threading_run cfg env (S fuel) file s))).
Proof.
  split; [apply basename_no_slash|].
  destruct (multi_threading_run_stages cfg env (S fuel) file s)
    as (e1 & e3 & e4 & Hevs & H1 & H3 & H4 & _ & Hret).
  rewrite Forall_forall in H1, H3, H4.
  repeat split.
  - intros remote_path local_path failure Hin. rewrite Hevs in Hin.
    apply in_app_or in Hin as [Hin|Hin]; [|apply in_app_or in Hin as [Hin|Hin]].
    + destruct (H1 _ Hin) as [H|(f & H)]; [discriminate|]. now injection H.
    + destruct (H3 _ Hin) as [H|(r & l & f & H)]; discriminate.
    + destruct (H4 _ Hin) as [H|(f & H)]; discriminate.
  - intros remote_path failure Hin. rewrite Hevs in Hin.
    apply in_app_or in Hin as [Hin|Hin]; [|apply in_app_or in Hin as [Hin|Hin]].
    + destruct (H1 _ Hin) as [H|(f & H)]; discriminate.
    + destruct (H3 _ Hin) as [H|(r & l & f & H)]; discriminate.
    + destruct (H4 _ Hin) as [H|(f & H)]; [discriminate|]. now injection H.
  - destruct (download_image_first_event fuel file s) as (failure & rest & Hfirst).
    unfold Scaler.multi_threading_run. rewrite bind_cases.
    destruct (Eff.res (Scaler.download_image cfg env (S fuel) file (Scaler.WORKDIR cfg) s));
      cbn [Eff.events]; rewrite Hfirst; cbn [app]; eauto.
  - intros v Hv. rewrite Hevs. apply in_or_app; right. apply in_or_app; right.
    now apply (Hret v).
Qed.
End RawLocation.

(** ** Relocation *)

Ltac run_mover :=
  cbv beta iota zeta delta
      [Eff.bind Eff.ret Eff.raise Eff.res Eff.final Eff.events
       Mover.remote Mover.clock Mover.get_image_tags Mover.get_images_list
       Mover.get_tags_list];
  cbn [app].

Lemma app_eq_middle (X : Type) (a b before after : list X) (x : X) :
  a ++ b = before ++ x :: after ->
  (exists rest, a = before ++ x :: rest /\ after = rest ++ b)
  \/ (exists more, before = a ++ more /\ b = more ++ x :: after).
Proof.
  revert before. induction a as [|y a IH]; intros before H; simpl in H.
  - right. now exists before.
  - destruct before as [|z before]; simpl in H.
    + injection H as -> <-. left. now exists a.
    + injection H as -> H. destruct (IH _ H) as [(rest & -> & ->)|(more & -> & ->)].
      * left. now exists rest.
      * right. now exists more.
Qed.

Section Relocation.
Variable cfg : Mover.config.
Variable env : Mover.environment.

Let tags_event (n : Mover.node) (failure : option exn) : Mover.event :=
  Mover.Remote (Mover.CallGetTags n) failure.
Let move_event (n : Mover.node) (dest : string) (failure : option exn) : Mover.event :=
  Mover.Remote (Mover.CallMove n dest) failure.
Let unassign_event (n : Mover.node) (id : Z) (failure : option exn) : Mover.event :=
  Mover.Remote (Mover.CallUnassignTag n id) failure.

(** The four ways the relocation of one file can go. *)
Lemma relocate_shape (n : Mover.node) (s : Mover.state) :
  (exists e,
      Mover.get_tags env (Mover.clock s) n = Raises e
      /\ Eff.res (Mover.relocate cfg env n s) = Raise e
      /\ Eff.events (Mover.relocate cfg env n s) = [tags_event n (Some e)])
  \/ (Mover.get_tags env (Mover.clock s) n = Returns []
      /\ Eff.res (Mover.relocate cfg env n s) = Ret tt
      /\ Eff.events (Mover.relocate cfg env n s) = [tags_event n None])
  \/ (exists first others,
         Mover.get_tags env (Mover.clock s) n = Returns (first :: others)
         /\ let dest := Mover.target_path cfg n (Mover.display_name first) in
            (exists e,
                Eff.res (Mover.relocate cfg env n s) = Raise e
                /\ Eff.events (Mover.relocate cfg env n s)
                   = [tags_event n None; move_event n dest (Some e)])
            \/ (exists e,
                   Eff.res (Mover.relocate cfg env n s) = Raise e
                   /\ Eff.events (Mover.relocate cfg env n s)
                      = [tags_event n None; move_event n dest None;
                         unassign_event n (Mover.tag_id first) (Some e)])
            \/ (Eff.res (Mover.relocate cfg env n s) = Ret tt
                /\ Eff.events (Mover.relocate cfg env n s)
                   = [tags_event n None; move_event n dest None;
                      unassign_event n (Mover.tag_id first) None])).
Proof.
  destruct s as [t]. unfold Mover.relocate. run_mover.
  destruct (Mover.get_tags env t n) as [[|first others]|e]; run_mover.
  - right; left. auto.
  - right; right. exists first, others. split; [reflexivity|].
    change (0 <? length (first :: others))%nat with true.
    unfold Mover.move_image. run_mover.
    destruct (Mover.move env (S t) n _) as [[]|e]; run_mover.
    + destruct (Mover.unassign_tag env (S (S t)) n _) as [[]|e]; run_mover.
      * right; right. auto.
      * right; left. exists e. auto.
    + left. exists e. auto.
  - left. exists e. auto.
Qed.

Lemma relocate_unassigns_after_move (n : Mover.node) (s : Mover.state) :
  unassigned_after_move (Eff.events (Mover.relocate cfg env n s)).
Proof.
  intros before m id f after Hevs.
  destruct (relocate_shape n s)
    as [(e & _ & _ & H)|[(_ & _ & H)|(first & others & _ & [(e & _ & H)|[(e & _ & H)|(_ & H)]])]];
    rewrite H in Hevs; clear H;
    unfold tags_event, move_event, unassign_event in Hevs;
    destruct before as [|a [|b [|c before]]]; cbn [app] in Hevs;
    try discriminate;
    try (destruct before; discriminate);
    inversion Hevs; subst;
    eexists [_], _; reflexivity.
Qed.
End Relocation.

Lemma unassigned_after_move_app (a b : list Mover.event) :
  unassigned_after_move a -> unassigned_after_move b -> unassigned_after_move (a ++ b).
Proof.
  intros Ha Hb before n id f after H.
  destruct (@app_eq_middle _ _ _ _ _ _ H) as [(rest & Heq & _)|(more & -> & Heq)].
  - exact (Ha _ _ _ _ _ Heq).
  - destruct (Hb _ _ _ _ _ Heq) as (earlier & dest & ->).
    exists (a ++ earlier), dest. now rewrite app_assoc.
Qed.

Lemma unassigned_after_move_single (c : Mover.remote_call) (f : option exn) :
  (forall n id, c <> Mover.CallUnassignTag n id) ->
  unassigned_after_move [Mover.Remote c f].
Proof.
  intros Hc before n id f' after H.
  destruct before as [|a before]; simpl in H.
  - injection H as -> _. now destruct (Hc n id).
  - injection H as _ H. now destruct before.
Qed.

Lemma unassigned_after_move_nil : unassigned_after_move [].
Proof. intros before n id f after H. now destruct before. Qed.

Section RelocationRuns.
Variable cfg : Mover.config.
Variable env : Mover.environment.

Lemma for_each_node_unassigns_after_move (nodes : list Mover.node) :
  forall s, unassigned_after_move (Eff.events (Mover.for_each_node cfg env nodes s)).
Proof.
  induction nodes as [|n rest IH]; intros s; simpl.
  - apply unassigned_after_move_nil.
  - rewrite bind_cases.
    pose proof (relocate_unassigns_after_move cfg env n s) as Hn.
    destruct (Eff.res (Mover.relocate cfg env n s)); cbn [Eff.events]; auto.
    apply unassigned_after_move_app; auto.
Qed.

Lemma main_unassigns_after_move (s : Mover.state) :
  unassigned_after_move (Eff.events (Mover.main cfg env s)).
Proof.
  destruct s as [t]. unfold Mover.main. run_mover.
  destruct (Mover.listdir env t _) as [nodes|e]; run_mover;
    [|apply unassigned_after_move_single; discriminate].
  destruct (Mover.list_tags env (S t)) as [all_tags|e]; run_mover.
  - pose proof (for_each_node_unassigns_after_move nodes (Mover.mkState (S (S t)))) as H.
    destruct (Mover.for_each_node cfg env nodes _) as [r s' evs]; cbn [Eff.events] in H.
    apply (@unassigned_after_move_app [_; _] evs); [|exact H].
    apply (@unassigned_after_move_app [_] [_]);
      apply unassigned_after_move_single; discriminate.
  - apply (@unassigned_after_move_app [_] [_]);
      apply unassigned_after_move_single; discriminate.
Qed.

(** A failed call of the client ends the relocation of the file on the
    spot, with the failure of the call. *)
Lemma relocate_failure_propagates (n : Mover.node) (s : Mover.state)
      (before after : list Mover.event) (c : Mover.remote_call) (e : exn) :
  Eff.events (Mover.relocate cfg env n s) = before ++ Mover.Remote c (Some e) :: after ->
  after = [] /\ Eff.res (Mover.relocate cfg env n s) = Raise e.
Proof.
  intros Hevs.
  destruct (relocate_shape cfg env n s)
    as [(e' & _ & Hr & H)|[(_ & Hr & H)|(first & others & _ & [(e' & Hr & H)|[(e' & Hr & H)|(Hr & H)]])]];
    rewrite H in Hevs; rewrite Hr; clear H Hr;
    destruct before as [|a [|b [|d before]]]; cbn [app] in Hevs;
    try discriminate;
    try (destruct before; discriminate);
    inversion Hevs; subst; auto.
Qed.
End RelocationRuns.

Section TaskOrder.
Variable cfg : Scaler.config.
Variable env : Scaler.environment.

Lemma multi_threading_run_deletes_after_upload (fuel : nat) (file : string)
      (s : Scaler.state) :
  deleted_after_upload (Eff.events (Scaler.multi_threading_run cfg env fuel file s)).
Proof.
  intros before p f after Hevs.
  destruct (multi_threading_run_stages cfg env fuel file s)
    as (e1 & e3 & e4 & Heq & H1 & H3 & H4 & Hup & _).
  rewrite Heq in Hevs.
  destruct (@app_eq_middle _ _ _ _ _ _ Hevs) as [(rest & Hin & _)|(more & -> & Hevs')].
  { exfalso. apply (download_is_not_clean (cfg := cfg) (file := file) (evs := e1) p f H1).
    rewrite Hin. apply in_or_app; right; now left. }
  destruct (@app_eq_middle _ _ _ _ _ _ Hevs') as [(rest & Hin & _)|(more' & -> & Hclean)].
  { exfalso. apply (upload_is_not_clean (evs := e3) p f H3).
    rewrite Hin. apply in_or_app; right; now left. }
  destruct Hup as (remote_path & local_path & Hin).
  { rewrite Hclean. now destruct more'. }
  exists remote_path, local_path.
  apply in_or_app; right. apply in_or_app; now left.
Qed.
End TaskOrder.

(** ** The source goes only after the destination is written *)

Lemma in_middle (X : Type) (x : X) (l : list X) :
  In x l -> exists before after, l = before ++ x :: after.
Proof. apply in_split. Qed.

(** C4.  In every run of a task of the transform pipeline, a deletion of the
    raw item is asked only after an upload call has returned without
    failure, and when no upload call succeeds no deletion is asked at all.
    In every run of the mover, a tag is unassigned from a file only right
    after the move of that file has returned without failure, and for a file
    whose move never succeeds no tag is unassigned.  The normal return of the
    write call is the confirmation the scripts go by. *)
Theorem source_removed_only_after_write :
  (forall (cfg : Scaler.config) (env : Scaler.environment) (fuel : nat) (file : string)
          (s : Scaler.state),
      let evs := Eff.events (Scaler.multi_threading_run cfg env fuel file s) in
      (forall before p f after,
          evs = before ++ Scaler.Remote (Scaler.CallClean p) f :: after ->
          exists remote_path local_path,
            In (Scaler.Remote (Scaler.CallUpload remote_path local_path) None) before)
      /\ ((forall remote_path local_path,
              ~ In (Scaler.Remote (Scaler.CallUpload remote_path local_path) None) evs) ->
          forall p f, ~ In (Scaler.Remote (Scaler.CallClean p) f) evs))
  /\ (forall (cfg : Mover.config) (env : Mover.environment) (s : Mover.state),
         let evs := Eff.events (Mover.main cfg env s) in
         (forall before n id f after,
             evs = before ++ Mover.Remote (Mover.CallUnassignTag n id) f :: after ->
             exists earlier dest,
               before = earlier ++ [Mover.Remote (Mover.CallMove n dest) None])
         /\ (forall n,
                (forall dest, ~ In (Mover.Remote (Mover.CallMove n dest) None) evs) ->
                forall id f, ~ In (Mover.Remote (Mover.CallUnassignTag n id) f) evs)).
Proof.
  split.
  - intros cfg env fuel file s evs.
    pose proof (multi_threading_run_deletes_after_upload cfg env fuel file s) as Hord.
    fold evs in Hord. split; [exact Hord|].
    intros Hnone p f Hin.
    destruct (in_middle _ _ Hin) as (before & after & Heq).
    destruct (Hord _ _ _ _ Heq) as (remote_path & local_path & Hup).
    apply (Hnone remote_path local_path).
    rewrite Heq. apply in_or_app; now left.
  - intros cfg env s evs.
    pose proof (main_unassigns_after_move cfg env s) as Hord.
    fold evs in Hord. split; [exact Hord|].
    intros n Hnone id f Hin.
    destruct (in_middle _ _ Hin) as (before & after & Heq).
    destruct (Hord _ _ _ _ _ Heq) as (earlier & dest & ->).
    apply (Hnone dest).
    rewrite Heq, <- app_assoc. apply in_or_app; right. now left.
Qed.

(** A task that goes through: the upload succeeds, then the raw item is
    deleted. *)
Lemma source_removed_only_after_write_witness :
  exists remote_path local_path,
    In (Scaler.Remote (Scaler.CallUpload remote_path local_path) None)
       [ Scaler.Remote (Scaler.CallDownload "_raw/raw_photo1.jpg"
                                            "/home/jovyan/tmp/raw_photo1.jpg") None;
         Scaler.Remote (Scaler.CallUpload "_unsorted/jh_rescaler_20240101120000_7.png"
                          "/home/jovyan/output/jh_rescaler_20240101120000_7.png") None ].
Proof.
  apply (proj1 (proj1 source_removed_only_after_write scaler_cfg (flaky_env 0) 1 raw_photo
                      (Scaler.mkState [] 0))
           _ "_raw/raw_photo1.jpg" None []).
  vm_compute. reflexivity.
Defined.

(** ** Connection errors: retried by the scaler, fatal to the mover *)

(** C5, as the code has it.  Every call of the store by the scaler is made
    inside a function that [webdav_exception_handler] decorates (listing,
    download, upload, deletion), and no connection error ever leaves one of
    them.  The mover has no such wrapper: it calls the client directly, and a
    failed tag query, move or unassignment, a lost connection included, is the
    last thing the relocation of the file does and ends it with that
    failure. *)
Theorem connection_errors_retried_by_scaler_only :
  (forall (cfg : Scaler.config) (env : Scaler.environment) (fuel : nat) (s : Scaler.state)
          (e : exn),
      (forall raw, Eff.res (Scaler.get_images_list cfg env fuel raw s) = Raise e ->
                   Scaler.is_connection_error e = false)
      /\ (forall remote_file_path directory,
             Eff.res (Scaler.download_image cfg env fuel remote_file_path directory s)
             = Raise e ->
             Scaler.is_connection_error e = false)
      /\ (forall local_file_path remote_directory,
             Eff.res (Scaler.upload_image env fuel local_file_path remote_directory s)
             = Raise e ->
             Scaler.is_connection_error e = false)
      /\ (forall remote_file_name,
             Eff.res (Scaler.delete_source_image env fuel remote_file_name s) = Raise e ->
             Scaler.is_connection_error e = false))
  /\ (forall (cfg : Mover.config) (env : Mover.environment) (n : Mover.node)
             (s : Mover.state) before c e after,
         Eff.events (Mover.relocate cfg env n s)
         = before ++ Mover.Remote c (Some e) :: after ->
         after = [] /\ Eff.res (Mover.relocate cfg env n s) = Raise e).
Proof.
  split.
  - intros cfg env fuel s e. repeat split; intros;
      eapply wrapper_absorbs_connection_errors; eassumption.
  - intros cfg env n s before c e after. apply relocate_failure_propagates.
Qed.

(** The connection drops during the move: the relocation ends there. *)
Lemma connection_errors_retried_by_scaler_only_witness :
  Eff.res (Mover.relocate mover_cfg (mover_env [ai_cats] (Raises connect_error))
                          photo (Mover.mkState 2))
  = Raise connect_error.
Proof.
  apply (proj2 connection_errors_retried_by_scaler_only mover_cfg
           (mover_env [ai_cats] (Raises connect_error)) photo (Mover.mkState 2)
           [Mover.Remote (Mover.CallGetTags photo) None]
           (Mover.CallMove photo "/Photos/cats/jh_rescaler_20240101120000_7.png")
           connect_error []).
  vm_compute. reflexivity.
Defined.

(** C5, as stated, fails: when the connection is lost during the move, the
    mover does not wait and retry; the failure leaves [__main__] after a
    single attempt. *)
Lemma mover_does_not_retry :
  Mover.main mover_cfg (mover_env [ai_cats] (Raises connect_error)) (Mover.mkState 0)
  = Eff.mkRun (Raise connect_error) (Mover.mkState 4)
      [ Mover.Remote (Mover.CallListdir "_unsorted") None;
        Mover.Remote Mover.CallListTags None;
        Mover.Remote (Mover.CallGetTags photo) None;
        Mover.Remote (Mover.CallMove photo "/Photos/cats/jh_rescaler_20240101120000_7.png")
                     (Some connect_error) ].
Proof. vm_compute. reflexivity. Qed.

(** ** Files without tags *)

Section Untagged.
Variable cfg : Mover.config.
Variable env : Mover.environment.

(** C8.  For a file whose tag list is empty, relocation makes the tag query
    and nothing else: no move, no unassignment, so the file keeps its path
    and its tags.  Conversely, whenever relocation makes a call that changes
    the store (a move or an unassignment), the tag query has returned a
    non-empty list. *)
Theorem relocate_untagged_is_noop (n : Mover.node) (s : Mover.state) :
  (Mover.get_tags env (Mover.clock s) n = Returns [] ->
   Mover.relocate cfg env n s
   = Eff.mkRun (Ret tt) (Mover.mkState (S (Mover.clock s)))
               [Mover.Remote (Mover.CallGetTags n) None])
  /\ (forall c f,
         In (Mover.Remote c f) (Eff.events (Mover.relocate cfg env n s)) ->
         Mover.mutates c = true ->
         exists first others,
           Mover.get_tags env (Mover.clock s) n = Returns (first :: others)).
Proof.
  split.
  - intros Hnone. destruct s as [t]. unfold Mover.relocate. run_mover.
    cbn [Mover.clock] in Hnone. rewrite Hnone. reflexivity.
  - intros c f Hin Hmut.
    destruct (relocate_shape cfg env n s)
      as [(e & _ & _ & H)|[(_ & _ & H)|(first & others & Htags & _)]].
    + rewrite H in Hin. destruct Hin as [Heq|[]]. injection Heq as <- _. discriminate.
    + rewrite H in Hin. destruct Hin as [Heq|[]]. injection Heq as <- _. discriminate.
    + eauto.
Qed.
End Untagged.

Lemma relocate_untagged_is_noop_witness :
  Mover.relocate mover_cfg (mover_env [] (Returns tt)) photo (Mover.mkState 2)
  = Eff.mkRun (Ret tt) (Mover.mkState 3) [Mover.Remote (Mover.CallGetTags photo) None].
Proof.
  apply (proj1 (relocate_untagged_is_noop mover_cfg (mover_env [] (Returns tt)) photo
                  (Mover.mkState 2))).
  reflexivity.
Defined.

(** ** The batch scheduler *)

Section Scheduler.

Let run (running : list Scaler.thread) (evs : list Scaler.sched_event) :=
  fold_left Scaler.sched_step evs running.

Lemma run_app (running : list Scaler.thread) (a b : list Scaler.sched_event) :
  run running (a ++ b) = run (run running a) b.
Proof. apply fold_left_app. Qed.

Lemma filter_length_le (X : Type) (f : X -> bool) (l : list X) :
  length (filter f l) <= length l.
Proof. induction l as [|x l IH]; simpl; [lia|]. destruct (f x); simpl; lia. Qed.

(** Joining never adds a thread. *)
Lemma run_joins_length (joined : list Scaler.thread) :
  forall running, length (run running (map Scaler.Join joined)) <= length running.
Proof.
  induction joined as [|t joined IH]; intros running; simpl; [lia|].
  etransitivity; [apply IH|]. apply filter_length_le.
Qed.

(** Joining every thread of the pool leaves none of them running. *)
Lemma run_joins_all (joined : list Scaler.thread) :
  forall running, incl running joined -> run running (map Scaler.Join joined) = [].
Proof.
  induction joined as [|t joined IH]; intros running Hincl; simpl.
  - destruct running as [|u running]; [reflexivity|]. destruct (Hincl u); now left.
  - apply IH. intros u Hu. apply filter_In in Hu as [Hu Hdiff].
    destruct (Hincl u Hu) as [->|Hin]; [|assumption].
    unfold Scaler.same_thread in Hdiff. now rewrite Nat.eqb_refl in Hdiff.
Qed.

Lemma firstn_joins (k : nat) (joined : list Scaler.thread) :
  firstn k (map Scaler.Join joined) = map Scaler.Join (firstn k joined).
Proof. apply firstn_map. Qed.

Lemma schedule_from_bounded (objects : list string) :
  forall next thread_poll k,
    length thread_poll <= Scaler.THREADS_LIMIT ->
    length (run thread_poll (firstn k (Scaler.schedule_from objects next thread_poll)))
    <= Scaler.THREADS_LIMIT.
Proof.
  induction objects as [|object rest IH]; intros next thread_poll k Hlen;
    cbn [Scaler.schedule_from].
  - rewrite firstn_joins.
    etransitivity; [apply run_joins_length|assumption].
  - destruct (Scaler.THREADS_LIMIT <=? length thread_poll)%nat eqn:Hfull.
    + rewrite firstn_app, run_app, firstn_joins.
      rewrite length_map.
      destruct (Nat.le_gt_cases k (length thread_poll)) as [Hk|Hk].
      * replace (k - length thread_poll) with 0 by lia. cbn [firstn run fold_left].
        etransitivity; [apply run_joins_length|assumption].
      * rewrite firstn_all2 by lia.
        rewrite run_joins_all by apply incl_refl.
        destruct (k - length thread_poll) as [|k'] eqn:Hk'; [lia|].
        cbn [firstn]. unfold run at 1. cbn [fold_left Scaler.sched_step app].
        apply IH. cbn. unfold Scaler.THREADS_LIMIT. lia.
    + apply Nat.leb_gt in Hfull.
      destruct k as [|k]; [exact Hlen|].
      cbn [firstn]. unfold run. cbn [fold_left Scaler.sched_step].
      apply IH. rewrite length_app; cbn. lia.
Qed.

Lemma schedule_from_drains (objects : list string) :
  forall next thread_poll,
    run thread_poll (Scaler.schedule_from objects next thread_poll) = [].
Proof.
  induction objects as [|object rest IH]; intros next thread_poll;
    cbn [Scaler.schedule_from].
  - apply run_joins_all, incl_refl.
  - destruct (Scaler.THREADS_LIMIT <=? length thread_poll)%nat.
    + rewrite run_app, run_joins_all by apply incl_refl.
      unfold run. cbn [fold_left Scaler.sched_step app]. apply IH.
    + unfold run. cbn [fold_left Scaler.sched_step]. apply IH.
Qed.

Lemma schedule_from_started (objects : list string) :
  forall next thread_poll,
    map Scaler.target_arg (started (Scaler.schedule_from objects next thread_poll))
    = objects.
Proof.
  assert (Hjoins : forall joined, started (map Scaler.Join joined) = []).
  { induction joined as [|t joined IHj]; [reflexivity|exact IHj]. }
  induction objects as [|object rest IH]; intros next thread_poll;
    cbn [Scaler.schedule_from].
  - now rewrite Hjoins.
  - destruct (Scaler.THREADS_LIMIT <=? length thread_poll)%nat.
    + unfold started. rewrite flat_map_app. fold (started (map Scaler.Join thread_poll)).
      rewrite Hjoins. cbn [app flat_map map Scaler.target_arg].
      fold (started (Scaler.schedule_from rest (S next)
                       [{| Scaler.rank := next; Scaler.target_arg := object |}])).
      now rewrite IH.
    + unfold started. cbn [flat_map app map Scaler.target_arg].
      fold (started (Scaler.schedule_from rest (S next)
                       (thread_poll
                          ++ [{| Scaler.rank := next; Scaler.target_arg := object |}]))).
      now rewrite IH.
Qed.
End Scheduler.

Section SchedulerBarrier.

Let run (running : list Scaler.thread) (evs : list Scaler.sched_event) :=
  fold_left Scaler.sched_step evs running.

Lemma joins_hold_no_start (joined : list Scaler.thread) (t : Scaler.thread) :
  ~ In (Scaler.Start t) (map Scaler.Join joined).
Proof. intros H. apply in_map_iff in H as (u & Hu & _). discriminate. Qed.

(** A [start()] that comes right after a [join()] finds no thread
    running: the whole batch has been joined. *)
Lemma schedule_from_barrier (objects : list string) :
  forall next thread_poll before u t after,
    Scaler.schedule_from objects next thread_poll
    = before ++ Scaler.Join u :: Scaler.Start t :: after ->
    run thread_poll (before ++ [Scaler.Join u]) = [].
Proof.
  induction objects as [|object rest IH]; intros next thread_poll before u t after H;
    cbn [Scaler.schedule_from] in H.
  - exfalso. apply (joins_hold_no_start thread_poll t).
    rewrite H. apply in_or_app; right; right; now left.
  - destruct (Scaler.THREADS_LIMIT <=? length thread_poll)%nat.
    + destruct (@app_eq_middle _ _ _ _ _ _ H) as [(rest' & Hj & Ht)|(more & -> & Ht)].
      * destruct rest' as [|r rest'].
        -- rewrite <- Hj. apply (run_joins_all (incl_refl thread_poll)).
        -- exfalso. injection Ht as <- _.
           apply (joins_hold_no_start thread_poll t).
           rewrite Hj. apply in_or_app; right; right; now left.
      * destruct more as [|m more]; [discriminate|].
        injection Ht as <- Ht.
        rewrite <- app_assoc. unfold run. rewrite fold_left_app.
        rewrite (run_joins_all (incl_refl thread_poll)).
        cbn [app fold_left Scaler.sched_step].
        exact (IH _ _ _ _ _ _ Ht).
    + destruct before as [|b before]; [discriminate|].
      injection H as <- H.
      unfold run. cbn [app fold_left Scaler.sched_step].
      exact (IH _ _ _ _ _ _ H).
Qed.

Lemma started_joins (joined : list Scaler.thread) : started (map Scaler.Join joined) = [].
Proof. induction joined as [|t joined IH]; [reflexivity|exact IH]. Qed.

(** A [join()] that comes right after a [start()] means that the batch
    is full, or that every object has its thread. *)
Lemma schedule_from_joins_when_full (objects : list string) :
  forall next thread_poll before t u after,
    length thread_poll <= Scaler.THREADS_LIMIT ->
    Scaler.schedule_from objects next thread_poll
    = before ++ Scaler.Start t :: Scaler.Join u :: after ->
    length (run thread_poll (before ++ [Scaler.Start t])) = Scaler.THREADS_LIMIT
    \/ started after = [].
Proof.
  assert (Hhead : forall rest next pool u after,
             length pool <= Scaler.THREADS_LIMIT ->
             pool <> [] ->
             Scaler.schedule_from rest next pool = Scaler.Join u :: after ->
             length pool = Scaler.THREADS_LIMIT \/ started after = []).
  { intros rest next pool u after Hlen Hne H.
    destruct rest as [|object rest]; cbn [Scaler.schedule_from] in H.
    - right. destruct pool as [|p pool]; [congruence|].
      injection H as _ <-. apply started_joins.
    - destruct (Scaler.THREADS_LIMIT <=? length pool)%nat eqn:Hfull; [|discriminate].
      apply Nat.leb_le in Hfull. left. lia. }
  induction objects as [|object rest IH]; intros next thread_poll before t u after Hlen H;
    cbn [Scaler.schedule_from] in H.
  - exfalso. apply (joins_hold_no_start thread_poll t).
    rewrite H. apply in_or_app; right; now left.
  - destruct (Scaler.THREADS_LIMIT <=? length thread_poll)%nat eqn:Hfull.
    + destruct (@app_eq_middle _ _ _ _ _ _ H) as [(rest' & Hj & _)|(more & -> & Ht)].
      { exfalso. apply (joins_hold_no_start thread_poll t).
        rewrite Hj. apply in_or_app; right; now left. }
      rewrite <- app_assoc. unfold run. rewrite fold_left_app.
      rewrite (run_joins_all (incl_refl thread_poll)).
      destruct more as [|m more].
      * injection Ht as <- Ht. cbn [app fold_left Scaler.sched_step].
        assert (Hh : length [{| Scaler.rank := next; Scaler.target_arg := object |}]
                     = Scaler.THREADS_LIMIT \/ started after = []).
        { apply (Hhead rest (S next) _ u after);
            [cbn; unfold Scaler.THREADS_LIMIT; lia | discriminate | exact Ht]. }
        destruct Hh as [Hone|Hnone]; [|now right].
        cbn in Hone. unfold Scaler.THREADS_LIMIT in Hone. lia.
      * injection Ht as <- Ht. cbn [app fold_left Scaler.sched_step].
        apply (IH (S next) _ more t u after);
          [cbn; unfold Scaler.THREADS_LIMIT; lia | exact Ht].
    + apply Nat.leb_gt in Hfull.
      assert (Hlen' : length (thread_poll
                                ++ [{| Scaler.rank := next; Scaler.target_arg := object |}])
                      <= Scaler.THREADS_LIMIT) by (rewrite length_app; cbn; lia).
      destruct before as [|b before].
      * injection H as <- H. unfold run. cbn [app fold_left Scaler.sched_step].
        apply (Hhead rest (S next) _ u after Hlen'); [now destruct thread_poll|exact H].
      * injection H as <- H. unfold run. cbn [app fold_left Scaler.sched_step].
        apply (IH (S next) _ before t u after Hlen' H).
Qed.
End SchedulerBarrier.

(** C9.  In a scheduling cycle over [objects], one thread is started for each
    object, in order, and at every point of the cycle (after any number of
    the main thread's [start()] and [join()] calls) at most [THREADS_LIMIT]
    threads have been started and not joined, which bounds the tasks that
    run.  A [join()] follows a [start()] only when [THREADS_LIMIT] threads are
    in flight or when every object has its thread; a [start()] that follows a
    [join()] finds no thread in flight, the whole batch having been joined; and
    when the cycle ends every thread has been joined. *)
Theorem schedule_keeps_threads_limit (objects : list string) :
  Scaler.THREADS_LIMIT = 10
  /\ map Scaler.target_arg (started (Scaler.schedule objects)) = objects
  /\ (forall k,
         length (Scaler.in_flight (firstn k (Scaler.schedule objects)))
         <= Scaler.THREADS_LIMIT)
  /\ (forall before t u after,
         Scaler.schedule objects = before ++ Scaler.Start t :: Scaler.Join u :: after ->
         length (Scaler.in_flight (before ++ [Scaler.Start t])) = Scaler.THREADS_LIMIT
         \/ started after = [])
  /\ (forall before u t after,
         Scaler.schedule objects = before ++ Scaler.Join u :: Scaler.Start t :: after ->
         Scaler.in_flight (before ++ [Scaler.Join u]) = [])
  /\ Scaler.in_flight (Scaler.schedule objects) = [].
Proof.
  unfold Scaler.schedule, Scaler.in_flight.
  split; [reflexivity|]. split; [apply schedule_from_started|].
  split; [intros k; apply (schedule_from_bounded objects 0 [] k); cbn; lia|].
  split; [intros before t u after;
          apply (schedule_from_joins_when_full objects 0 []); cbn; lia|].
  split; [intros before u t after; apply (schedule_from_barrier objects 0 [])|].
  apply schedule_from_drains.
Qed.

(** With eleven objects the first [join()] comes after the tenth
    [start()], with ten threads in flight. *)
Lemma schedule_keeps_threads_limit_witness :
  length (Scaler.in_flight (map Scaler.Start (map nth_thread (seq 0 9))
                              ++ [Scaler.Start (nth_thread 9)]))
  = Scaler.THREADS_LIMIT
  \/ started (map Scaler.Join (map nth_thread (seq 1 9))
                ++ [Scaler.Start (nth_thread 10); Scaler.Join (nth_thread 10)]) = [].
Proof.
  apply (proj1 (proj2 (proj2 (proj2 (schedule_keeps_threads_limit eleven_objects))))
           (map Scaler.Start (map nth_thread (seq 0 9)))
           (nth_thread 9) (nth_thread 0)).
  vm_compute. reflexivity.
Defined.

(** A task that goes through reads and deletes [_raw/raw_photo1.jpg],
    whatever directory the listing gave. *)
Lemma multi_threading_run_uses_raw_dir_witness :
  In (Scaler.Remote (Scaler.CallClean "_raw/raw_photo1.jpg") None)
     (Eff.events (Scaler.multi_threading_run scaler_cfg (flaky_env 0) 1 raw_photo
                                             (Scaler.mkState [] 0))).
Proof.
  apply (proj2 (proj2 (proj2 (proj2
           (multi_threading_run_uses_raw_dir scaler_cfg (flaky_env 0) 0 raw_photo
              (Scaler.mkState [] 0))))) tt).
  vm_compute. reflexivity.
Defined.

(** * Further properties of the scaler's remote functions *)

Section RemoteFunctions.
Variable cfg : Scaler.config.
Variable env : Scaler.environment.

(** A failed attempt of an upload leaves the local files as they were. *)
Lemma upload_attempt_raises (local_file_path remote_directory : string) (s : Scaler.state)
      (e : exn) :
  Eff.res (Scaler.upload_image_undecorated env (local_file_path, remote_directory) s)
  = Raise e ->
  Scaler.fs (Eff.final (Scaler.upload_image_undecorated env
                          (local_file_path, remote_directory) s))
  = Scaler.fs s.
Proof.
  destruct s as [files t]. unfold Scaler.upload_image_undecorated. run_eff.
  destruct (Scaler.upload_sync env _ _ _); run_eff; [|reflexivity].
  destruct (Scaler.file_in local_file_path files); run_eff; [discriminate|reflexivity].
Qed.

Lemma upload_attempt_returns (local_file_path remote_directory : string) (s : Scaler.state)
      (v : unit) :
  Eff.res (Scaler.upload_image_undecorated env (local_file_path, remote_directory) s)
  = Ret v ->
  Scaler.fs (Eff.final (Scaler.upload_image_undecorated env
                          (local_file_path, remote_directory) s))
  = filter (fun p => negb (String.eqb local_file_path p)) (Scaler.fs s).
Proof.
  destruct s as [files t]. unfold Scaler.upload_image_undecorated. run_eff.
  destruct (Scaler.upload_sync env _ _ _); run_eff; [|discriminate].
  destruct (Scaler.file_in local_file_path files); run_eff; [reflexivity|discriminate].
Qed.

(** X1.  When [upload_image] returns, the store has accepted an upload of the
    local file to [remote_directory/<base name of the local path>], the local
    file is gone from disk, and every other local file is as it was. *)
Theorem upload_image_consumes_local_file
        (fuel : nat) (local_file_path remote_directory : string) (s : Scaler.state)
        (v : unit) :
  Eff.res (Scaler.upload_image env fuel local_file_path remote_directory s) = Ret v ->
  In (Scaler.Remote
        (Scaler.CallUpload (remote_directory +++ "/" +++ Py.basename local_file_path)
                           local_file_path) None)
     (Eff.events (Scaler.upload_image env fuel local_file_path remote_directory s))
  /\ Scaler.file_in local_file_path
       (Scaler.fs (Eff.final (Scaler.upload_image env fuel local_file_path
                                                  remote_directory s))) = false
  /\ (forall p, String.eqb local_file_path p = false ->
        Scaler.file_in p
          (Scaler.fs (Eff.final (Scaler.upload_image env fuel local_file_path
                                                     remote_directory s)))
        = Scaler.file_in p (Scaler.fs s)).
Proof.
  intros Hret. split; [exact (upload_image_returned env _ _ _ _ Hret)|].
  revert v Hret. unfold Scaler.upload_image.
  pattern s, (Scaler.webdav_exception_handler fuel (Scaler.upload_image_undecorated env)
                (local_file_path, remote_directory) s).
  apply wrapper_ind; clear s.
  - discriminate.
  - intros s _ v Hret. rewrite (upload_attempt_returns _ _ _ Hret). split.
    + rewrite file_in_remove, String.eqb_refl. reflexivity.
    + intros p Hp. rewrite file_in_remove, Hp. reflexivity.
  - intros s e r Hres _ IH v Hret; cbn [Eff.res Eff.final] in *.
    rewrite (upload_attempt_raises _ _ _ Hres) in IH. exact (IH v Hret).
Qed.

(** X2.  When the local file is not on disk, [upload_image] cannot return:
    it ends with a failure that is not a connection error, or it is still
    retrying; and it leaves the local files as they were. *)
Theorem upload_image_needs_local_file
        (fuel : nat) (local_file_path remote_directory : string) (s : Scaler.state) :
  Scaler.file_in local_file_path (Scaler.fs s) = false ->
  (Eff.res (Scaler.upload_image env fuel local_file_path remote_directory s) = Diverge
   \/ exists e,
        Eff.res (Scaler.upload_image env fuel local_file_path remote_directory s) = Raise e
        /\ Scaler.is_connection_error e = false)
  /\ Scaler.fs (Eff.final (Scaler.upload_image env fuel local_file_path remote_directory s))
     = Scaler.fs s.
Proof.
  intros Habsent.
  destruct (upload_image_without_file env fuel local_file_path remote_directory s Habsent)
    as [Hnot Hsame].
  split; [|exact Hsame].
  destruct (Eff.res (Scaler.upload_image env fuel local_file_path remote_directory s))
    as [v|e|] eqn:Hres.
  - now destruct (Hnot v).
  - right. exists e. split; [reflexivity|].
    unfold Scaler.upload_image in Hres.
    exact (wrapper_absorbs_connection_errors _ _ _ _ Hres).
  - now left.
Qed.

Lemma download_attempt_keeps (file directory : string) (s : Scaler.state) (p : string) :
  Scaler.file_in p (Scaler.fs s) = true ->
  Scaler.file_in p
    (Scaler.fs (Eff.final (Scaler.download_image_undecorated cfg env (file, directory) s)))
  = true.
Proof.
  destruct s as [files t]. unfold Scaler.download_image_undecorated. run_eff.
  destruct (Scaler.download_sync env _ _ _); run_eff; [|auto].
  intros Hp. rewrite file_in_cons, Hp. apply orb_true_r.
Qed.

(** X3.  [download_image] removes no local file, and when it returns, its
    last call of the store is a download from [RAW_REMOTE_DIR/<base name>]
    that succeeded, and the file [directory/<base name>] is on disk. *)
Theorem download_image_stages_file
        (fuel : nat) (file directory : string) (s : Scaler.state) :
  (forall p, Scaler.file_in p (Scaler.fs s) = true ->
             Scaler.file_in p
               (Scaler.fs (Eff.final (Scaler.download_image cfg env fuel file directory s)))
             = true)
  /\ (forall v,
         Eff.res (Scaler.download_image cfg env fuel file directory s) = Ret v ->
         Scaler.file_in (directory +++ "/" +++ Py.basename file)
           (Scaler.fs (Eff.final (Scaler.download_image cfg env fuel file directory s)))
         = true
         /\ exists before,
              Eff.events (Scaler.download_image cfg env fuel file directory s)
              = before
                  ++ [Scaler.Remote
                        (Scaler.CallDownload
                           (Scaler.RAW_REMOTE_DIR cfg +++ "/" +++ Py.basename file)
                           (directory +++ "/" +++ Py.basename file)) None]).
Proof.
  split.
  - intros p. unfold Scaler.download_image.
    apply (wrapper_keeps (Scaler.download_image_undecorated cfg env) (file, directory)
             (fun st => Scaler.file_in p (Scaler.fs st) = true)).
    intros s0. apply download_attempt_keeps.
  - intros v Hret. unfold Scaler.download_image in *.
    destruct (wrapper_returned _ _ _ _ Hret) as (s' & before & Hres & -> & ->).
    revert Hres. destruct s' as [files t].
    unfold Scaler.download_image_undecorated. run_eff.
    destruct (Scaler.download_sync env _ _ _); run_eff; [intros _|discriminate].
    split; [rewrite file_in_cons, String.eqb_refl; reflexivity|].
    now exists before.
Qed.

(** X4.  The trace of [delete_source_image] is a run of attempts that found
    no connection, each followed by one 180-second sleep, and then: nothing
    more while it is still retrying; or one deletion that succeeded, and it
    returns; or one deletion that failed otherwise, and it raises that
    failure. *)
Theorem delete_source_image_trace (fuel : nat) (remote_file_name : string) :
  forall s : Scaler.state,
  exists errors,
    Forall (fun e => Scaler.is_connection_error e = true) errors
    /\ ((length errors = fuel
         /\ Eff.res (Scaler.delete_source_image env fuel remote_file_name s) = Diverge
         /\ Eff.events (Scaler.delete_source_image env fuel remote_file_name s)
            = retry_trace (Scaler.CallClean remote_file_name) errors)
        \/ (Eff.res (Scaler.delete_source_image env fuel remote_file_name s) = Ret tt
            /\ Eff.events (Scaler.delete_source_image env fuel remote_file_name s)
               = retry_trace (Scaler.CallClean remote_file_name) errors
                   ++ [Scaler.Remote (Scaler.CallClean remote_file_name) None])
        \/ (exists e,
               Scaler.is_connection_error e = false
               /\ Eff.res (Scaler.delete_source_image env fuel remote_file_name s) = Raise e
               /\ Eff.events (Scaler.delete_source_image env fuel remote_file_name s)
                  = retry_trace (Scaler.CallClean remote_file_name) errors
                      ++ [Scaler.Remote (Scaler.CallClean remote_file_name) (Some e)])).
Proof.
  unfold Scaler.delete_source_image.
  induction fuel as [|fuel IH]; intros s.
  - exists []. split; [constructor|]. left. repeat split.
  - assert (Hattempt :
      (Eff.res (Scaler.delete_source_image_undecorated env remote_file_name s) = Ret tt
       /\ Eff.events (Scaler.delete_source_image_undecorated env remote_file_name s)
          = [Scaler.Remote (Scaler.CallClean remote_file_name) None])
      \/ exists e,
           Eff.res (Scaler.delete_source_image_undecorated env remote_file_name s) = Raise e
           /\ Eff.events (Scaler.delete_source_image_undecorated env remote_file_name s)
              = [Scaler.Remote (Scaler.CallClean remote_file_name) (Some e)]).
    { destruct s as [files t]. unfold Scaler.delete_source_image_undecorated. run_eff.
      destruct (Scaler.clean env _ _) as [[]|e]; run_eff; [left|right; exists e]; auto. }
    destruct Hattempt as [[Hres Hevs]|(e & Hres & Hevs)].
    + exists []. split; [constructor|]. right; left.
      rewrite (wrapper_returns _ _ fuel s Hres). auto.
    + destruct (Scaler.is_connection_error e) eqn:Hconn.
      * rewrite (wrapper_retries _ _ fuel s Hres Hconn); cbn [Eff.res Eff.events].
        rewrite Hevs.
        destruct (IH (Eff.final (Scaler.delete_source_image_undecorated env
                                   remote_file_name s)))
          as (errors & Hall & [(Hlen & Hr & He)|[(Hr & He)|(e' & Hc & Hr & He)]]);
          exists (e :: errors); (split; [now constructor|]); rewrite Hr, He.
        -- left. cbn [length]. auto.
        -- right; left. auto.
        -- right; right. exists e'. auto.
      * exists []. split; [constructor|]. right; right. exists e.
        rewrite (wrapper_propagates _ _ fuel s Hres Hconn). auto.
Qed.
End RemoteFunctions.

(** * Further properties of the transform *)

Section Transform.
Variable cfg : Scaler.config.
Variable env : Scaler.environment.

(** X5.  [increase_resolution] reports no failure to its caller.  Whenever it
    returns, it returns the name it generated, and either the output file is
    on disk and the staged input has been removed, or the output file is not
    on disk and the local files are exactly as they were: the missing output
    is only printed. *)
Theorem increase_resolution_returns_name_regardless
        (file : string) (scale : Z) (s : Scaler.state) (new_file_name : string) :
  Eff.res (Scaler.increase_resolution cfg env (Py.basename file) scale s)
  = Ret new_file_name ->
  let after := Scaler.fs (Eff.final (Scaler.increase_resolution cfg env (Py.basename file)
                                                                scale s)) in
  new_file_name = generated_name env (Scaler.clock s)
  /\ ((Scaler.file_in (transform_output cfg env (Scaler.clock s)) after = true
       /\ Scaler.file_in (staged_input cfg file) after = false)
      \/ (Scaler.file_in (transform_output cfg env (Scaler.clock s)) after = false
          /\ after = Scaler.fs s)).
Proof.
  intros Hret after.
  split; [exact (increase_resolution_name cfg env _ _ _ Hret)|].
  destruct (Scaler.file_in (transform_output cfg env (Scaler.clock s)) after) eqn:Hout.
  - left. split; [reflexivity|].
    revert Hret Hout. unfold after. clear after.
    destruct s as [files t].
    pose proof (output_is_not_input cfg env file t) as Hdiff.
    unfold transform_output, generated_name, staged_input in *.
    unfold Scaler.increase_resolution. run_eff.
    set (output := Py.os_path_join (Scaler.OUTPUT_DIR cfg) _) in *.
    set (input := Py.os_path_join (Scaler.WORKDIR cfg) _) in *.
    destruct (Scaler.imread env _ _) as [[[h w]|]|]; run_eff; try discriminate.
    destruct (Scaler.resize env _ _ _); run_eff; try discriminate.
    destruct (Scaler.imwrite env _ _ _) as [[|]|]; run_eff; try discriminate.
    + rewrite file_in_cons, String.eqb_refl; cbn [orb].
      destruct (Scaler.file_in input (output :: files)); run_eff; [|discriminate].
      intros _ _. rewrite file_in_remove, String.eqb_refl. reflexivity.
    + destruct (Scaler.file_in output files) eqn:Hin; run_eff.
      * destruct (Scaler.file_in input files); run_eff; [|discriminate].
        intros _ _. rewrite file_in_remove, String.eqb_refl. reflexivity.
      * intros _ Hc. rewrite Hin in Hc. discriminate.
  - right. split; [reflexivity|].
    exact (increase_resolution_without_output cfg env file scale s Hout).
Qed.

(** X6.  [increase_resolution] emits no call of the store and touches no
    local file but its own two: every path other than the staged input and
    the output is on disk afterwards exactly when it was before.  When
    [cv2.imread] cannot read the staged input and returns [None], the function
    raises [AttributeError] and nothing on disk has changed. *)
Theorem increase_resolution_touches_two_files
        (file : string) (scale : Z) (s : Scaler.state) :
  Eff.events (Scaler.increase_resolution cfg env (Py.basename file) scale s) = []
  /\ (forall p,
         String.eqb (staged_input cfg file) p = false ->
         String.eqb (transform_output cfg env (Scaler.clock s)) p = false ->
         Scaler.file_in p
           (Scaler.fs (Eff.final (Scaler.increase_resolution cfg env (Py.basename file)
                                                             scale s)))
         = Scaler.file_in p (Scaler.fs s))
  /\ (Scaler.imread env (S (S (Scaler.clock s))) (staged_input cfg file) = Returns None ->
      Eff.res (Scaler.increase_resolution cfg env (Py.basename file) scale s)
      = Raise AttributeError
      /\ Scaler.fs (Eff.final (Scaler.increase_resolution cfg env (Py.basename file)
                                                          scale s))
         = Scaler.fs s).
Proof.
  split; [apply increase_resolution_events|].
  destruct s as [files t].
  unfold transform_output, generated_name, staged_input.
  unfold Scaler.increase_resolution. run_eff.
  set (output := Py.os_path_join (Scaler.OUTPUT_DIR cfg) _).
  set (input := Py.os_path_join (Scaler.WORKDIR cfg) _).
  split.
  - intros p Hin Hout.
    destruct (Scaler.imread env _ _) as [[[h w]|]|]; run_eff; try reflexivity.
    destruct (Scaler.resize env _ _ _); run_eff; try reflexivity.
    destruct (Scaler.imwrite env _ _ _) as [[|]|]; run_eff; try reflexivity.
    + rewrite file_in_cons, String.eqb_refl; cbn [orb].
      destruct (Scaler.file_in input (output :: files)); run_eff.
      * rewrite file_in_remove, Hin, file_in_cons, (String.eqb_sym p output), Hout.
        reflexivity.
      * rewrite file_in_cons, (String.eqb_sym p output), Hout. reflexivity.
    + destruct (Scaler.file_in output files); run_eff; [|reflexivity].
      destruct (Scaler.file_in input files); run_eff; [|reflexivity].
      rewrite file_in_remove, Hin. reflexivity.
  - intros ->. run_eff. split; reflexivity.
Qed.
End Transform.

(** * A task that goes through *)

Section TaskSuccess.
Variable cfg : Scaler.config.
Variable env : Scaler.environment.

End TaskSuccess.

(** * Further properties of discovery *)

Section DiscoveryEdges.
Variable cfg : Scaler.config.
Variable env : Scaler.environment.

Lemma startswith_empty (s : string) : Py.startswith s EmptyString = true.
Proof. now destruct s. Qed.

(** X8.  The two edges of the prefix list.  With no prefix configured,
    discovery selects nothing, whatever the listing.  With the empty string
    among the prefixes, every name matches, and discovery selects every
    well-formed entry that is not a directory. *)
Theorem get_images_list_prefix_edges
        (fuel : nat) (raw : string) (s : Scaler.state) (all_files : list pyvalue) :
  Scaler.webdav_list env (Scaler.clock s) raw = Returns all_files ->
  (Scaler.RAW_NAMES_PREFIXES cfg = [] ->
   Eff.res (Scaler.get_images_list cfg env (S fuel) raw s) = Ret [])
  /\ (In EmptyString (Scaler.RAW_NAMES_PREFIXES cfg) ->
      Eff.res (Scaler.get_images_list cfg env (S fuel) raw s)
      = Ret (map entry_path
               (filter (fun file => negb (entry_is_directory file))
                       (filter well_formed all_files)))).
Proof.
  intros Hlist. rewrite (get_images_list_run cfg env fuel raw s Hlist); cbn [Eff.res].
  split.
  - intros Hnone. f_equal.
    induction (filter well_formed all_files) as [|file rest IH]; [reflexivity|].
    cbn [filter]. unfold selected at 1. rewrite Hnone. cbn. exact IH.
  - intros Hempty. do 2 f_equal.
    apply filter_ext. intros file. unfold selected.
    replace (Py.any_startswith (Py.basename (entry_path file))
                               (Scaler.RAW_NAMES_PREFIXES cfg)) with true; [reflexivity|].
    symmetry. apply existsb_exists. exists EmptyString. split; [assumption|].
    apply startswith_empty.
Qed.

(** The listing call finds no connection: one failed event, nothing else. *)
Lemma list_attempt_raises (raw : string) (s : Scaler.state) (e : exn) :
  Scaler.webdav_list env (Scaler.clock s) raw = Raises e ->
  Scaler.get_images_list_undecorated cfg env raw s
  = Eff.mkRun (Raise e) (Scaler.tick s) [Scaler.Remote (Scaler.CallList raw) (Some e)].
Proof.
  intros H. unfold Scaler.get_images_list_undecorated, Eff.bind, Scaler.remote.
  now rewrite H.
Qed.

(** X9.  Discovery under a lost connection.  When the listing call finds no
    connection [N] times in a row and then returns a listing, discovery
    returns the filtered result of that listing; its trace is the [N] failed
    listing calls, each followed by a 180-second sleep, then the listing call
    that succeeded and the reports of the entries that could not be
    processed. *)
Theorem get_images_list_after_lost_connection
        (raw : string) (all_files : list pyvalue) (N : nat) :
  forall (fuel : nat) (s : Scaler.state),
    N < fuel ->
    (forall i, i < N ->
               exists e, Scaler.webdav_list env (Scaler.clock s + i) raw = Raises e
                         /\ Scaler.is_connection_error e = true) ->
    Scaler.webdav_list env (Scaler.clock s + N) raw = Returns all_files ->
    exists errors,
      length errors = N
      /\ Forall (fun e => Scaler.is_connection_error e = true) errors
      /\ Scaler.get_images_list cfg env fuel raw s
         = Eff.mkRun
             (Ret (map entry_path (filter (selected cfg) (filter well_formed all_files))))
             (Scaler.mkState (Scaler.fs s) (Scaler.clock s + S N))
             (retry_trace (Scaler.CallList raw) errors
                ++ Scaler.Remote (Scaler.CallList raw) None
                   :: flat_map (entry_report cfg) all_files).
Proof.
  induction N as [|N IH]; intros fuel s Hfuel Hfail Hok.
  - destruct fuel as [|fuel]; [lia|].
    rewrite Nat.add_0_r in Hok.
    exists []. split; [reflexivity|]. split; [constructor|].
    rewrite (get_images_list_run cfg env fuel raw s Hok).
    unfold Scaler.tick. now rewrite Nat.add_1_r.
  - destruct fuel as [|fuel]; [lia|].
    destruct (Hfail 0 ltac:(lia)) as (e & He & Hconn).
    rewrite Nat.add_0_r in He.
    destruct (IH fuel (Scaler.tick s)) as (errors & Hlen & Hall & Hrun).
    + lia.
    + intros i Hi. destruct (Hfail (S i) ltac:(lia)) as (e' & He' & Hc').
      exists e'. split; [|assumption].
      rewrite Nat.add_succ_r in He'. exact He'.
    + rewrite Nat.add_succ_r in Hok. exact Hok.
    + exists (e :: errors). split; [cbn; lia|]. split; [now constructor|].
      unfold Scaler.get_images_list in *.
      assert (Hres : Eff.res (Scaler.get_images_list_undecorated cfg env raw s) = Raise e)
        by now rewrite (list_attempt_raises raw s He).
      rewrite (wrapper_retries _ _ fuel s Hres Hconn).
      rewrite (list_attempt_raises raw s He); cbn [Eff.final Eff.events].
      rewrite Hrun; cbn [Eff.res Eff.final Eff.events Scaler.tick Scaler.fs Scaler.clock].
      cbn [retry_trace flat_map app]. f_equal. f_equal. lia.
Qed.
End DiscoveryEdges.

(** * Further properties of the mover *)

Section MoverRuns.
Variable cfg : Mover.config.
Variable env : Mover.environment.

Lemma for_each_node_failure (nodes : list Mover.node) :
  forall s before c e after,
    Eff.events (Mover.for_each_node cfg env nodes s)
    = before ++ Mover.Remote c (Some e) :: after ->
    after = [] /\ Eff.res (Mover.for_each_node cfg env nodes s) = Raise e.
Proof.
  induction nodes as [|n rest IH]; intros s before c e after; cbn [Mover.for_each_node].
  - intros H. now destruct before.
  - rewrite bind_cases.
    pose proof (relocate_failure_propagates cfg env n s) as Hn.
    destruct (Eff.res (Mover.relocate cfg env n s)) as [[]|e'|] eqn:Hres;
      cbn [Eff.events Eff.res]; intros H.
    + destruct (@app_eq_middle _ _ _ _ _ _ H) as [(more & H1 & _)|(more & _ & H2)].
      * destruct (Hn _ _ _ _ H1) as [_ Hr]. discriminate.
      * exact (IH _ _ _ _ _ H2).
    + exact (Hn _ _ _ _ H).
    + destruct (Hn _ _ _ _ H) as [_ Hr]. discriminate.
Qed.

(** X10.  Nothing in the mover catches a failure: in a run of [__main__] a
    call of the client that fails, whichever it is, is the last call made,
    and the run ends with its failure.  A file whose relocation fails
    therefore stops the loop: the files listed after it are not examined. *)
Theorem main_stops_at_first_failure
        (s : Mover.state) (before after : list Mover.event) (c : Mover.remote_call)
        (e : exn) :
  Eff.events (Mover.main cfg env s) = before ++ Mover.Remote c (Some e) :: after ->
  after = [] /\ Eff.res (Mover.main cfg env s) = Raise e.
Proof.
  destruct s as [t]. unfold Mover.main. run_mover.
  destruct (Mover.listdir env t _) as [nodes|e1]; run_mover.
  - destruct (Mover.list_tags env (S t)) as [all_tags|e2]; run_mover.
    + pose proof (for_each_node_failure nodes (Mover.mkState (S (S t)))) as Hloop.
      destruct (Mover.for_each_node cfg env nodes _) as [r s' evs];
        cbn [Eff.events Eff.res] in *.
      intros H.
      destruct before as [|b1 [|b2 before]]; cbn [app] in H; try discriminate.
      injection H as _ _ H. exact (Hloop _ _ _ _ H).
    + intros H.
      destruct before as [|b1 [|b2 before]]; cbn [app] in H; try discriminate.
      * inversion H; subst; auto.
      * injection H as _ _ H. now destruct before.
  - intros H. destruct before as [|b1 before]; cbn [app] in H.
    + inversion H; subst; auto.
    + injection H as _ H. now destruct before.
Qed.

(** X11.  The list of all tags is only printed, yet [__main__] asks for it
    before it looks at any file: when the listing of the unsorted directory or
    the listing of the tags fails, the run ends with that failure and no file
    has been queried, moved or untagged. *)
Theorem main_needs_both_listings (s : Mover.state) (e : exn) :
  (Mover.listdir env (Mover.clock s) (Mover.UNSORTED_REMOTE_DIR cfg) = Raises e ->
   Mover.main cfg env s
   = Eff.mkRun (Raise e) (Mover.mkState (S (Mover.clock s)))
       [Mover.Remote (Mover.CallListdir (Mover.UNSORTED_REMOTE_DIR cfg)) (Some e)])
  /\ (forall nodes,
         Mover.listdir env (Mover.clock s) (Mover.UNSORTED_REMOTE_DIR cfg) = Returns nodes ->
         Mover.list_tags env (S (Mover.clock s)) = Raises e ->
         Mover.main cfg env s
         = Eff.mkRun (Raise e) (Mover.mkState (S (S (Mover.clock s))))
             [Mover.Remote (Mover.CallListdir (Mover.UNSORTED_REMOTE_DIR cfg)) None;
              Mover.Remote Mover.CallListTags (Some e)]).
Proof.
  destruct s as [t]. cbn [Mover.clock]. split.
  - intros H. unfold Mover.main. run_mover. rewrite H. reflexivity.
  - intros nodes H1 H2. unfold Mover.main. run_mover. rewrite H1. run_mover.
    rewrite H2. reflexivity.
Qed.

Lemma relocate_queries_once (n : Mover.node) (s : Mover.state) :
  queried (Eff.events (Mover.relocate cfg env n s)) = [n].
Proof.
  destruct (relocate_shape cfg env n s)
    as [(e & _ & _ & H)|[(_ & _ & H)|(first & others & _ & [(e & _ & H)|[(e & _ & H)|(_ & H)]])]];
    rewrite H; reflexivity.
Qed.

Lemma for_each_node_queries (nodes : list Mover.node) :
  forall s,
  exists unexamined,
    nodes = queried (Eff.events (Mover.for_each_node cfg env nodes s)) ++ unexamined
    /\ (forall v, Eff.res (Mover.for_each_node cfg env nodes s) = Ret v -> unexamined = []).
Proof.
  induction nodes as [|n rest IH]; intros s; cbn [Mover.for_each_node].
  - exists []. split; reflexivity.
  - rewrite bind_cases.
    pose proof (relocate_queries_once n s) as Hn.
    destruct (Eff.res (Mover.relocate cfg env n s)) as [[]|e|];
      cbn [Eff.events Eff.res].
    + destruct (IH (Eff.final (Mover.relocate cfg env n s)))
        as (unexamined & Heq & Hdone).
      exists unexamined. unfold queried in *. rewrite flat_map_app, Hn. cbn [app].
      split; [now f_equal|exact Hdone].
    + exists rest. rewrite Hn. split; [reflexivity|discriminate].
    + exists rest. rewrite Hn. split; [reflexivity|discriminate].
Qed.

(** X12.  A run of [__main__] asks for the tags of the listed files one by
    one in the order of the listing, each file once, without skipping any;
    and when the run ends normally, every listed file has been queried. *)
Theorem main_queries_files_in_order (s : Mover.state) (nodes : list Mover.node) :
  Mover.listdir env (Mover.clock s) (Mover.UNSORTED_REMOTE_DIR cfg) = Returns nodes ->
  exists unexamined,
    nodes = queried (Eff.events (Mover.main cfg env s)) ++ unexamined
    /\ (forall v, Eff.res (Mover.main cfg env s) = Ret v -> unexamined = []).
Proof.
  destruct s as [t]. cbn [Mover.clock]. intros Hlist.
  unfold Mover.main. run_mover. rewrite Hlist. run_mover.
  destruct (Mover.list_tags env (S t)) as [all_tags|e]; run_mover.
  - destruct (for_each_node_queries nodes (Mover.mkState (S (S t))))
      as (unexamined & Heq & Hdone).
    destruct (Mover.for_each_node cfg env nodes _) as [r s' evs];
      cbn [Eff.events Eff.res] in *.
    exists unexamined. split; [exact Heq|exact Hdone].
  - exists nodes. split; [reflexivity|discriminate].
Qed.

(** X13.  [move_image] does not check that the first tag carries the marker.
    A tag name in which ['PARENT_TAG_VALUE:'] does not occur is used whole as
    the name of the directory: the file is sent to
    [IMAGES_ROOT_DIR/<tag name>/<base name>]. *)
Theorem move_image_takes_unmarked_tag
        (n : Mover.node) (first : Mover.tag) (others : list Mover.tag) (s : Mover.state) :
  Py.occurs (Mover.PARENT_TAG_VALUE cfg +++ ":") (Mover.display_name first) = false ->
  exists failure rest,
    Eff.events (Mover.move_image cfg env n (first :: others) s)
    = Mover.Remote
        (Mover.CallMove n (Mover.IMAGES_ROOT_DIR cfg +++ "/" +++ Mover.display_name first
                             +++ "/" +++ Py.basename (Mover.user_path n)))
        failure :: rest.
Proof.
  intros Habsent.
  destruct (move_image_first_event cfg env n first others s) as (failure & rest & H).
  exists failure, rest. rewrite H. do 3 f_equal.
  unfold Mover.target_path, Py.replace.
  destruct (Mover.PARENT_TAG_VALUE cfg +++ ":") eqn:Hold.
  - destruct (Mover.PARENT_TAG_VALUE cfg); discriminate.
  - now rewrite replace_scan_absent.
Qed.

(** X14.  The relocation of a tagged file, once its move has succeeded,
    unassigns the identifier of the first tag and of no other.  If that
    unassignment fails, the relocation ends with the failure and makes no
    further call: the move is not undone, the file stays moved and tagged. *)
Theorem relocate_after_move
        (n : Mover.node) (first : Mover.tag) (others : list Mover.tag) (s : Mover.state) :
  let dest := Mover.target_path cfg n (Mover.display_name first) in
  Mover.get_tags env (Mover.clock s) n = Returns (first :: others) ->
  Mover.move env (S (Mover.clock s)) n dest = Returns tt ->
  (Mover.unassign_tag env (S (S (Mover.clock s))) n (Mover.tag_id first) = Returns tt ->
   Mover.relocate cfg env n s
   = Eff.mkRun (Ret tt) (Mover.mkState (3 + Mover.clock s))
       [Mover.Remote (Mover.CallGetTags n) None;
        Mover.Remote (Mover.CallMove n dest) None;
        Mover.Remote (Mover.CallUnassignTag n (Mover.tag_id first)) None])
  /\ (forall e,
         Mover.unassign_tag env (S (S (Mover.clock s))) n (Mover.tag_id first) = Raises e ->
         Mover.relocate cfg env n s
         = Eff.mkRun (Raise e) (Mover.mkState (3 + Mover.clock s))
             [Mover.Remote (Mover.CallGetTags n) None;
              Mover.Remote (Mover.CallMove n dest) None;
              Mover.Remote (Mover.CallUnassignTag n (Mover.tag_id first)) (Some e)]).
Proof.
  intros dest. destruct s as [t]. cbn [Mover.clock]. intros Htags Hmove.
  assert (Hrun : forall answer,
             Mover.unassign_tag env (S (S t)) n (Mover.tag_id first) = answer ->
             Mover.relocate cfg env n (Mover.mkState t)
             = Eff.mkRun (match answer with Returns _ => Ret tt | Raises e => Raise e end)
                 (Mover.mkState (3 + t))
                 [Mover.Remote (Mover.CallGetTags n) None;
                  Mover.Remote (Mover.CallMove n dest) None;
                  Mover.Remote (Mover.CallUnassignTag n (Mover.tag_id first))
                               (match answer with Returns _ => None | Raises e => Some e end)]).
  { intros answer Hun. unfold Mover.relocate. run_mover. rewrite Htags. run_mover.
    change (0 <? length (first :: others))%nat with true.
    unfold Mover.move_image. run_mover. fold dest. rewrite Hmove. run_mover.
    rewrite Hun. destruct answer as [[]|e]; reflexivity. }
  split.
  - intros Hun. exact (Hrun _ Hun).
  - intros e Hun. exact (Hrun _ Hun).
Qed.
End MoverRuns.

(** * The scheduler on a small cycle *)

Lemma schedule_from_small (objects : list string) :
  forall next thread_poll,
    length thread_poll + length objects <= Scaler.THREADS_LIMIT ->
    Scaler.schedule_from objects next thread_poll
    = map Scaler.Start (threads_from next objects)
        ++ map Scaler.Join (thread_poll ++ threads_from next objects).
Proof.
  induction objects as [|object rest IH]; intros next thread_poll Hlen;
    cbn [Scaler.schedule_from threads_from map app].
  - now rewrite app_nil_r.
  - cbn [length] in Hlen.
    destruct (Scaler.THREADS_LIMIT <=? length thread_poll)%nat eqn:Hfull.
    + apply Nat.leb_le in Hfull. lia.
    + rewrite IH by (rewrite length_app; cbn; lia).
      now rewrite <- app_assoc.
Qed.

(** X15.  When a cycle has at most [THREADS_LIMIT] objects, the scheduler
    starts a thread for every object before it joins any: the whole cycle is
    one batch, started in the order of the listing and joined in the same
    order. *)
Theorem schedule_single_batch (objects : list string) :
  length objects <= Scaler.THREADS_LIMIT ->
  Scaler.schedule objects
  = map Scaler.Start (threads_from 0 objects) ++ map Scaler.Join (threads_from 0 objects).
Proof.
  intros Hlen. unfold Scaler.schedule.
  now rewrite schedule_from_small by (cbn; lia).
Qed.

(** * Batches of the scheduler *)

Lemma threads_from_length (objects : list string) :
  forall next, length (threads_from next objects) = length objects.
Proof. induction objects as [|o rest IH]; intros next; cbn; [reflexivity|now rewrite IH]. Qed.

Lemma schedule_from_fills_batch (batch : list string) :
  forall next thread_poll object rest,
    length thread_poll + length batch = Scaler.THREADS_LIMIT ->
    Scaler.schedule_from (batch ++ object :: rest) next thread_poll
    = map Scaler.Start (threads_from next batch)
        ++ map Scaler.Join (thread_poll ++ threads_from next batch)
        ++ Scaler.schedule_from (object :: rest) (length batch + next) [].
Proof.
  induction batch as [|b batch IH]; intros next thread_poll object rest Hlen;
    cbn [app threads_from map length Nat.add] in *.
  - rewrite app_nil_r. cbn [Scaler.schedule_from].
    replace (Scaler.THREADS_LIMIT <=? length thread_poll)%nat with true
      by (symmetry; apply Nat.leb_le; lia).
    reflexivity.
  - cbn [Scaler.schedule_from].
    replace (Scaler.THREADS_LIMIT <=? length thread_poll)%nat with false
      by (symmetry; apply Nat.leb_gt; lia).
    rewrite IH by (rewrite length_app; cbn; lia).
    rewrite <- app_assoc. cbn [app]. now rewrite Nat.add_succ_r.
Qed.

(** X16.  A cycle over more than [THREADS_LIMIT] objects runs the first
    [THREADS_LIMIT] of them as one batch: their threads are all started, then
    all joined, and only then does the scheduler go on with the remaining
    objects, exactly as a cycle over those alone would (their threads are
    ranked after the first batch). *)
Theorem schedule_first_batch (batch : list string) (object : string) (rest : list string) :
  length batch = Scaler.THREADS_LIMIT ->
  Scaler.schedule (batch ++ object :: rest)
  = map Scaler.Start (threads_from 0 batch)
      ++ map Scaler.Join (threads_from 0 batch)
      ++ Scaler.schedule_from (object :: rest) Scaler.THREADS_LIMIT [].
Proof.
  intros Hlen. unfold Scaler.schedule.
  rewrite schedule_from_fills_batch by (cbn; lia).
  cbn [app]. now rewrite Nat.add_0_r, Hlen.
Qed.

(** * The name under which a result is uploaded *)

Lemma has_char_append (c : ascii) (a b : string) :
  Py.has_char c (a +++ b) = (Py.has_char c a || Py.has_char c b)%bool.
Proof.
  induction a as [|x a IH]; cbn [String.append Py.has_char]; [reflexivity|].
  rewrite IH. now rewrite orb_assoc.
Qed.

Lemma str_of_uint_no_slash (d : Decimal.uint) :
  Py.has_char "/" (NilEmpty.string_of_uint d) = false.
Proof. induction d; cbn; assumption || reflexivity. Qed.

Lemma new_name_no_slash (stamp : string) (number : nat) :
  Py.has_char "/" stamp = false -> Py.has_char "/" (Scaler.new_name stamp number) = false.
Proof.
  intros Hstamp. unfold Scaler.new_name, Py.str_of_nat.
  rewrite !has_char_append, Hstamp, str_of_uint_no_slash. reflexivity.
Qed.

(** X17.  As long as the time stamp holds no ['/'] (the format
    [%Y%m%d%H%M%S] gives digits only), a result that [upload_image] has sent
    from the output directory is stored in the remote directory under the very
    name the transform generated, [jh_rescaler_<stamp>_<number>.png]. *)
Theorem upload_image_keeps_generated_name
        (cfg : Scaler.config) (env : Scaler.environment) (fuel t : nat)
        (remote_directory : string) (s : Scaler.state) (v : unit) :
  Py.has_char "/" (Scaler.now_strftime env t) = false ->
  Eff.res (Scaler.upload_image env fuel
             (Scaler.OUTPUT_DIR cfg +++ "/" +++ generated_name env t) remote_directory s)
  = Ret v ->
  In (Scaler.Remote
        (Scaler.CallUpload (remote_directory +++ "/" +++ generated_name env t)
                           (Scaler.OUTPUT_DIR cfg +++ "/" +++ generated_name env t)) None)
     (Eff.events (Scaler.upload_image env fuel
                    (Scaler.OUTPUT_DIR cfg +++ "/" +++ generated_name env t)
                    remote_directory s))
  /\ generated_name env t
     = "jh_rescaler_" +++ Scaler.now_strftime env t +++ "_"
         +++ Py.str_of_nat (Scaler.randint env (S t) 1 1000) +++ ".png".
Proof.
  intros Hstamp Hret. split; [|reflexivity].
  pose proof (upload_image_returned env _ _ _ _ Hret) as Hin.
  change (Scaler.OUTPUT_DIR cfg +++ "/" +++ generated_name env t)
    with (Scaler.OUTPUT_DIR cfg +++ String "/" (generated_name env t)) in Hin.
  rewrite (basename_append_slash (Scaler.OUTPUT_DIR cfg) (generated_name env t)) in Hin.
  - exact Hin.
  - unfold generated_name. now apply new_name_no_slash.
Qed.

(** * The further properties on concrete runs *)

Lemma upload_image_consumes_local_file_witness :
  Scaler.file_in scaled_png
    (Scaler.fs (Eff.final (Scaler.upload_image (flaky_env 0) 1 scaled_png "_unsorted"
                             (Scaler.mkState [scaled_png; staged_jpg] 0)))) = false.
Proof.
  eapply proj1, proj2.
  apply (upload_image_consumes_local_file (flaky_env 0) 1 scaled_png "_unsorted"
           (Scaler.mkState [scaled_png; staged_jpg] 0) (v := tt)).
  vm_compute. reflexivity.
Defined.

Lemma upload_image_needs_local_file_witness :
  Scaler.fs (Eff.final (Scaler.upload_image (flaky_env 0) 1 scaled_png "_unsorted"
                          (Scaler.mkState [staged_jpg] 0)))
  = Scaler.fs (Scaler.mkState [staged_jpg] 0).
Proof.
  eapply proj2.
  apply (upload_image_needs_local_file (flaky_env 0) 1 scaled_png "_unsorted"
           (Scaler.mkState [staged_jpg] 0)).
  vm_compute. reflexivity.
Defined.

Lemma download_image_stages_file_witness :
  Scaler.file_in (Scaler.WORKDIR scaler_cfg +++ "/" +++ Py.basename raw_photo)
    (Scaler.fs (Eff.final (Scaler.download_image scaler_cfg (flaky_env 2) 3 raw_photo
                             (Scaler.WORKDIR scaler_cfg) (Scaler.mkState [] 0)))) = true.
Proof.
  eapply proj1.
  apply (proj2 (download_image_stages_file scaler_cfg (flaky_env 2) 3 raw_photo
                  (Scaler.WORKDIR scaler_cfg) (Scaler.mkState [] 0)) tt).
  vm_compute. reflexivity.
Defined.

Lemma increase_resolution_returns_name_regardless_witness :
  "jh_rescaler_20240101120000_7.png" = generated_name no_output_env 1.
Proof.
  eapply proj1.
  apply (increase_resolution_returns_name_regardless scaler_cfg no_output_env raw_photo 2
           (Scaler.mkState [staged_jpg] 1)).
  vm_compute. reflexivity.
Defined.


Lemma get_images_list_prefix_edges_witness :
  Eff.res (Scaler.get_images_list no_prefix_cfg (listing_env raw_listing) 1 "_raw"
                                  (Scaler.mkState [] 0)) = Ret [].
Proof.
  apply (proj1 (get_images_list_prefix_edges no_prefix_cfg (listing_env raw_listing) 0 "_raw"
                  (Scaler.mkState [] 0) (all_files := raw_listing) eq_refl)).
  reflexivity.
Defined.

Lemma get_images_list_after_lost_connection_witness :
  exists errors,
    length errors = 2
    /\ Forall (fun e => Scaler.is_connection_error e = true) errors
    /\ Scaler.get_images_list scaler_cfg (lost_listing_env 2 raw_listing) 3 "_raw"
                              (Scaler.mkState [] 0)
       = Eff.mkRun
           (Ret (map entry_path (filter (selected scaler_cfg)
                                        (filter well_formed raw_listing))))
           (Scaler.mkState (Scaler.fs (Scaler.mkState [] 0))
                           (Scaler.clock (Scaler.mkState [] 0) + 3))
           (retry_trace (Scaler.CallList "_raw") errors
              ++ Scaler.Remote (Scaler.CallList "_raw") None
                 :: flat_map (entry_report scaler_cfg) raw_listing).
Proof.
  apply (@get_images_list_after_lost_connection scaler_cfg (lost_listing_env 2 raw_listing)
           "_raw" raw_listing 2 3 (Scaler.mkState [] 0)).
  - lia.
  - intros i Hi. exists NoConnection.
    destruct i as [|[|i]]; [split; reflexivity ..|lia].
  - reflexivity.
Defined.

Lemma main_stops_at_first_failure_witness :
  @nil Mover.event = []
  /\ Eff.res (Mover.main mover_cfg (mover_env [ai_cats] (Raises connect_error))
                         (Mover.mkState 0))
     = Raise connect_error.
Proof.
  apply (main_stops_at_first_failure mover_cfg (mover_env [ai_cats] (Raises connect_error))
           (Mover.mkState 0)
           [Mover.Remote (Mover.CallListdir "_unsorted") None;
            Mover.Remote Mover.CallListTags None;
            Mover.Remote (Mover.CallGetTags photo) None]
           []
           (Mover.CallMove photo "/Photos/cats/jh_rescaler_20240101120000_7.png")
           connect_error).
  vm_compute. reflexivity.
Defined.

Lemma main_needs_both_listings_witness :
  Mover.main mover_cfg no_tag_list_env (Mover.mkState 0)
  = Eff.mkRun (Raise connect_error) (Mover.mkState 2)
      [Mover.Remote (Mover.CallListdir (Mover.UNSORTED_REMOTE_DIR mover_cfg)) None;
       Mover.Remote Mover.CallListTags (Some connect_error)].
Proof.
  apply (proj2 (main_needs_both_listings mover_cfg no_tag_list_env (Mover.mkState 0)
                  connect_error) [photo]); reflexivity.
Defined.

Lemma main_queries_files_in_order_witness :
  exists unexamined,
    [photo]
    = queried (Eff.events (Mover.main mover_cfg (mover_env [] (Returns tt))
                                      (Mover.mkState 0)))
        ++ unexamined
    /\ (forall v,
           Eff.res (Mover.main mover_cfg (mover_env [] (Returns tt)) (Mover.mkState 0))
           = Ret v ->
           unexamined = []).
Proof.
  apply (main_queries_files_in_order mover_cfg (mover_env [] (Returns tt))
           (Mover.mkState 0) (nodes := [photo])).
  reflexivity.
Defined.

Lemma move_image_takes_unmarked_tag_witness :
  exists failure rest,
    Eff.events (Mover.move_image mover_cfg (mover_env [cats] (Returns tt)) photo [cats]
                                 (Mover.mkState 3))
    = Mover.Remote
        (Mover.CallMove photo
           (Mover.IMAGES_ROOT_DIR mover_cfg +++ "/" +++ Mover.display_name cats
              +++ "/" +++ Py.basename (Mover.user_path photo)))
        failure :: rest.
Proof.
  apply (move_image_takes_unmarked_tag mover_cfg (mover_env [cats] (Returns tt)) photo
           cats [] (Mover.mkState 3)).
  vm_compute. reflexivity.
Defined.

Lemma relocate_after_move_witness :
  Mover.relocate mover_cfg (mover_env [ai_cats] (Returns tt)) photo (Mover.mkState 2)
  = Eff.mkRun (Ret tt) (Mover.mkState (3 + Mover.clock (Mover.mkState 2)))
      [Mover.Remote (Mover.CallGetTags photo) None;
       Mover.Remote
         (Mover.CallMove photo (Mover.target_path mover_cfg photo (Mover.display_name ai_cats)))
         None;
       Mover.Remote (Mover.CallUnassignTag photo (Mover.tag_id ai_cats)) None].
Proof.
  apply (proj1 (@relocate_after_move mover_cfg (mover_env [ai_cats] (Returns tt)) photo
                  ai_cats [] (Mover.mkState 2) eq_refl eq_refl)).
  reflexivity.
Defined.

Lemma schedule_single_batch_witness :
  Scaler.schedule (firstn 3 eleven_objects)
  = map Scaler.Start (threads_from 0 (firstn 3 eleven_objects))
      ++ map Scaler.Join (threads_from 0 (firstn 3 eleven_objects)).
Proof.
  apply (schedule_single_batch (firstn 3 eleven_objects)).
  vm_compute. lia.
Defined.

Lemma schedule_first_batch_witness :
  Scaler.schedule (firstn 10 eleven_objects ++ "_raw/raw_10.jpg" :: [])
  = map Scaler.Start (threads_from 0 (firstn 10 eleven_objects))
      ++ map Scaler.Join (threads_from 0 (firstn 10 eleven_objects))
      ++ Scaler.schedule_from ("_raw/raw_10.jpg" :: []) Scaler.THREADS_LIMIT [].
Proof.
  apply (schedule_first_batch (firstn 10 eleven_objects) "_raw/raw_10.jpg" []).
  vm_compute. reflexivity.
Defined.

Lemma upload_image_keeps_generated_name_witness :
  In (Scaler.Remote
        (Scaler.CallUpload ("_unsorted" +++ "/" +++ generated_name (flaky_env 0) 1)
           (Scaler.OUTPUT_DIR scaler_cfg +++ "/" +++ generated_name (flaky_env 0) 1)) None)
     (Eff.events (Scaler.upload_image (flaky_env 0) 1
                    (Scaler.OUTPUT_DIR scaler_cfg +++ "/" +++ generated_name (flaky_env 0) 1)
                    "_unsorted" (Scaler.mkState [scaled_png] 6))).
Proof.
  eapply proj1.
  apply (upload_image_keeps_generated_name scaler_cfg (flaky_env 0) 1 1 "_unsorted"
           (Scaler.mkState [scaled_png] 6) (v := tt));
    vm_compute; reflexivity.
Defined.
